(** * Football Analytics API: a shallow embedding of the FastAPI backend

    The service is a thin HTTP layer: six GET routes serve the content of
    JSON fixture files found in [dummy_data/], one POST route acknowledges a
    video upload, and two pydantic modules declare the entity schemas.

    Layout, following the repository:
    - Python values, exceptions and the effect monad of a request;
    - [routes.tactical], [routes.decisions], [routes.upload];
    - [schemas.tactical], [schemas.decisions];
    - [main]: the application, its routes and the HTTP responses;
    - the properties of the service. *)

From Stdlib Require Import ZArith String Ascii List Bool PrimFloat Uint63.
From Stdlib.Strings Require Import Byte.
From Stdlib Require Import SpecFloat FloatOps FloatAxioms.
From stdpp Require Import base option gmap strings.

Local Open Scope Z_scope.
Set Warnings "-register-all".

(* ===================================================================== *)
(** ** Python values *)
(* ===================================================================== *)

(** The values [json.load] builds, and the ones the handlers return: [None],
    [bool], [int], [float] (IEEE binary64), [str], [list] and [dict] with
    string keys kept in insertion order. *)
Inductive pyval : Type :=
| PNone
| PBool (b : bool)
| PInt (z : Z)
| PFloat (f : float)
| PStr (s : string)
| PList (l : list pyval)
| PDict (d : list (string * pyval)).

(** [d.get(key)]: the value bound to [key] in a dict. *)
Fixpoint dict_get (d : list (string * pyval)) (key : string) : option pyval :=
  match d with
  | [] => None
  | (k, v) :: d' => if String.eqb k key then Some v else dict_get d' key
  end.

Definition is_dict (v : pyval) : bool :=
  match v with PDict _ => true | _ => false end.

(** Optional strings of the framework ([Optional[str]]) as Python values. *)
Definition of_optional_str (o : option string) : pyval :=
  match o with Some s => PStr s | None => PNone end.

(** Serialisation of a value of type [Any] for a JSON body: every value is
    kept, at any depth, except the floats that JSON cannot write ([nan],
    [inf], [-inf]), which become [None]. *)
Fixpoint jsonable (v : pyval) : pyval :=
  match v with
  | PFloat f => if PrimFloat.is_finite f then PFloat f else PNone
  | PList l => PList (map jsonable l)
  | PDict d => PDict (map (fun '(k, w) => (k, jsonable w)) d)
  | _ => v
  end.


(* ===================================================================== *)
(** ** Exceptions and the request monad *)
(* ===================================================================== *)

(** The exceptions that occur in the service: the framework's
    [HTTPException(status_code, detail)], [json.JSONDecodeError],
    [FileNotFoundError] of [open], and FastAPI's [ResponseValidationError];
    the other errors of opening and reading a file ([IsADirectoryError],
    [PermissionError], [UnicodeDecodeError]) and of decoding it
    ([RecursionError], [ValueError]); and FastAPI's
    [RequestValidationError] with its list of errors. *)
Inductive exn : Type :=
| HTTPException (status_code : Z) (detail : string)
| JSONDecodeError
| FileNotFoundError
| ResponseValidationError
| IsADirectoryError
| PermissionError
| UnicodeDecodeError
| RecursionError
| ValueError
| RequestValidationError (errors : pyval).

(** What [json.load(f)] can raise on the content of an open file: the
    bytes are not UTF-8 ([UnicodeDecodeError], raised while the text is
    read), the text is not JSON ([json.JSONDecodeError]), the document is
    nested deeper than the interpreter allows ([RecursionError]), or an
    integer has more digits than the interpreter converts ([ValueError]). *)
Inductive load_error : Type :=
| not_utf8
| not_json
| too_deep
| int_too_long.

Definition raised (e : load_error) : exn :=
  match e with
  | not_utf8 => UnicodeDecodeError
  | not_json => JSONDecodeError
  | too_deep => RecursionError
  | int_too_long => ValueError
  end.

(** What a path leads to: a directory, or a file with its bytes, which
    the process may or may not be allowed to read. *)
Inductive node : Type :=
| Directory
| File (readable : bool) (content : string).

(** The file system as seen from [DUMMY_DATA_DIR]: for each [filename],
    what [DUMMY_DATA_DIR / filename] leads to, if anything (the empty name
    leads to the directory itself). It is the only persistent state the
    service touches. *)
Abbreviation FileSystem := (gmap string node).

(** A computation of a request: it runs against the fixture directory, ends
    with a value or a raised exception, and leaves a directory behind. *)
Definition Py (A : Type) : Type := FileSystem -> (exn + A) * FileSystem.

Definition ret {A} (a : A) : Py A := fun fs => (inr a, fs).

Definition raise {A} (e : exn) : Py A := fun fs => (inl e, fs).

Definition bind {A B} (m : Py A) (k : A -> Py B) : Py B :=
  fun fs =>
    match m fs with
    | (inr a, fs') => k a fs'
    | (inl e, fs') => (inl e, fs')
    end.

(** [try: m except ...: handler e]; the handler re-raises what it does not
    catch. *)
Definition try_except {A} (m : Py A) (handler : exn -> Py A) : Py A :=
  fun fs =>
    match m fs with
    | (inr a, fs') => (inr a, fs')
    | (inl e, fs') => handler e fs'
    end.

#[global] Instance Py_ret : MRet Py := @ret.
#[global] Instance Py_bind : MBind Py := fun A B k m => bind m k.

(** [file_path.exists()] *)
Definition path_exists (filename : string) : Py bool :=
  fun fs => (inr (bool_decide (is_Some (fs !! filename))), fs).

(** [open(file_path, 'r', encoding='utf-8')]: the bytes behind the opened
    file, or the error of opening it. *)
Definition open_read (filename : string) : Py string :=
  fun fs =>
    match fs !! filename with
    | Some (File true content) => (inr content, fs)
    | Some (File false _) => (inl PermissionError, fs)
    | Some Directory => (inl IsADirectoryError, fs)
    | None => (inl FileNotFoundError, fs)
    end.

(** What a computation returns and what it leaves behind. *)
Definition result {A} (m : Py A) (fs : FileSystem) : exn + A := fst (m fs).
Definition final {A} (m : Py A) (fs : FileSystem) : FileSystem := snd (m fs).

(* ===================================================================== *)
(** ** The framework: response models and HTTP responses *)
(* ===================================================================== *)

(** The two [response_model] arguments the route decorators use. *)
Inductive response_model : Type :=
| List_Dict_str_Any   (* List[Dict[str, Any]] *)
| Dict_str_Any.       (* Dict[str, Any] *)

(** Validation of a returned value against the route's response model: a
    [dict] for [Dict[str, Any]], a [list] of [dict]s for
    [List[Dict[str, Any]]]; keys are strings already and the values are
    [Any]. *)
Definition validate_response (rm : response_model) (v : pyval) : bool :=
  match rm with
  | Dict_str_Any => is_dict v
  | List_Dict_str_Any =>
      match v with
      | PList l => forallb is_dict l
      | _ => false
      end
  end.

(** A decorated path operation: the value the function returns is validated
    against the response model, and a value that fails it is not sent
    ([ResponseValidationError]); a value that passes is serialised for the
    JSON body. *)
Definition api_route (rm : response_model) (endpoint : Py pyval) : Py pyval :=
  v ← endpoint;
  if validate_response rm v then ret (jsonable v)
  else raise ResponseValidationError.

(** A response: the status code and the value handed to the renderer of
    the body. *)
Record Response : Type := {
  status : Z;
  body : pyval
}.

(** What the client receives: the value with status 200; for an
    [HTTPException] its status and [{detail}]; for a
    [RequestValidationError] status 422 and its errors; for any other
    exception the server's plain 500 answer. *)
Definition respond (r : exn + pyval) : Response :=
  match r with
  | inr v => {| status := 200; body := v |}
  | inl (HTTPException code detail) =>
      {| status := code; body := PDict [("detail", PStr detail)] |}
  | inl (RequestValidationError errors) =>
      {| status := 422; body := PDict [("detail", errors)] |}
  | inl _ => {| status := 500; body := PStr "Internal Server Error" |}
  end.

(* ===================================================================== *)
(** ** routes *)
(* ===================================================================== *)

Module routes.

(** *** routes/tactical.py *)
Module tactical.

(** The paths of the router: [/heatmap], [/pass-network], [/tracking]. *)
Inductive endpoint : Type := heatmap | pass_network | tracking.

Section Loader.

(** Python's [json.load] on the content of an open file: the value it
    returns, or the error it raises. *)
Context (json_loads : string -> load_error + pyval).

Definition json_load (content : string) : Py pyval :=
  match json_loads content with
  | inr v => ret v
  | inl e => raise (raised e)
  end.

Definition load_json_file (filename : string) : Py pyval :=
  found ← path_exists filename;
  if negb found then
    raise (HTTPException 404 ("Data file " +:+ filename +:+ " not found"))
  else
    try_except
      (f ← open_read filename; json_load f)
      (fun e =>
         match e with
         | JSONDecodeError =>
             raise (HTTPException 500 ("Error parsing " +:+ filename))
         | _ => raise e
         end).

Definition get_heatmap : Py pyval := load_json_file "heatmap.json".

Definition get_pass_network : Py pyval := load_json_file "pass_network.json".

Definition get_tracking : Py pyval := load_json_file "tracking.json".

(** The router of the module: each path with the response model its
    decorator declares and its function. *)
Definition router (e : endpoint) : response_model * Py pyval :=
  match e with
  | heatmap => (List_Dict_str_Any, get_heatmap)
  | pass_network => (Dict_str_Any, get_pass_network)
  | tracking => (List_Dict_str_Any, get_tracking)
  end.

End Loader.
End tactical.

(** *** routes/decisions.py *)
Module decisions.

(** The paths of the router: [/offside], [/fouls], [/goal-prediction]. *)
Inductive endpoint : Type := offside | fouls | goal_prediction.

Section Loader.

Context (json_loads : string -> load_error + pyval).

Definition json_load (content : string) : Py pyval :=
  match json_loads content with
  | inr v => ret v
  | inl e => raise (raised e)
  end.

Definition load_json_file (filename : string) : Py pyval :=
  found ← path_exists filename;
  if negb found then
    raise (HTTPException 404 ("Data file " +:+ filename +:+ " not found"))
  else
    try_except
      (f ← open_read filename; json_load f)
      (fun e =>
         match e with
         | JSONDecodeError =>
             raise (HTTPException 500 ("Error parsing " +:+ filename))
         | _ => raise e
         end).

Definition get_offside : Py pyval := load_json_file "offside.json".

Definition get_fouls : Py pyval := load_json_file "fouls.json".

Definition get_goal_prediction : Py pyval := load_json_file "goal_prediction.json".

Definition router (e : endpoint) : response_model * Py pyval :=
  match e with
  | offside => (List_Dict_str_Any, get_offside)
  | fouls => (List_Dict_str_Any, get_fouls)
  | goal_prediction => (Dict_str_Any, get_goal_prediction)
  end.

End Loader.
End decisions.

(** *** routes/upload.py *)
Module upload.

(** The framework's [UploadFile]: the declared file name and media type of
    the multipart part (either may be missing) and the uploaded bytes. *)
Record UploadFile := {
  filename : option string;
  content_type : option string;
  file : string
}.

(** Truth value of an optional string: [None] and the empty string are
    false. *)
Definition truthy (o : option string) : bool :=
  match o with
  | None => false
  | Some s => negb (String.eqb s "")
  end.

(** [s.startswith(prefix)], reached only when [s] is a string. *)
Definition startswith (o : option string) (prefix : string) : bool :=
  match o with
  | None => false
  | Some s => String.prefix prefix s
  end.

Definition upload_video (video : UploadFile) : Py pyval :=
  if negb (truthy (content_type video))
     || negb (startswith (content_type video) "video/") then
    raise (HTTPException 400 "File must be a video")
  else
    ret (PDict [ ("message", PStr "Video uploaded successfully");
                 ("video_id", PInt 1);
                 ("filename", of_optional_str (filename video));
                 ("content_type", of_optional_str (content_type video)) ]).

(** [@router.post("/upload-video", response_model=Dict[str, Any])] *)
Definition router (video : UploadFile) : response_model * Py pyval :=
  (Dict_str_Any, upload_video video).

End upload.

End routes.

(* ===================================================================== *)
(** ** pydantic: field types, constraints and lookup *)
(* ===================================================================== *)

(** How pydantic turns an input value into a value of a field's type
    ([int], [float], [str], [bool]), or rejects it. The conversions of other
    types of input (a numeric string for an [int], an [int] for a [float],
    ...) belong to the library and its mode; what the schemas rely on is that
    a value that already has the field's type is taken as it is. *)
Class Conversions : Type := {
  to_int : pyval -> option Z;
  to_float : pyval -> option float;
  to_str : pyval -> option string;
  to_bool : pyval -> option bool;
  to_int_int : forall z, to_int (PInt z) = Some z;
  to_float_float : forall f, to_float (PFloat f) = Some f;
  to_str_str : forall s, to_str (PStr s) = Some s;
  to_bool_bool : forall b, to_bool (PBool b) = Some b
}.

(** The least family of conversions: a value is accepted exactly when it
    already has the field's type. *)
Definition exact_int (v : pyval) : option Z :=
  match v with PInt z => Some z | _ => None end.
Definition exact_float (v : pyval) : option float :=
  match v with PFloat f => Some f | _ => None end.
Definition exact_str (v : pyval) : option string :=
  match v with PStr s => Some s | _ => None end.
Definition exact_bool (v : pyval) : option bool :=
  match v with PBool b => Some b | _ => None end.

Definition exact_types : Conversions := {|
  to_int := exact_int;
  to_float := exact_float;
  to_str := exact_str;
  to_bool := exact_bool;
  to_int_int := fun _ => eq_refl;
  to_float_float := fun _ => eq_refl;
  to_str_str := fun _ => eq_refl;
  to_bool_bool := fun _ => eq_refl
|}.

Module pydantic.
Section Fields.
Context `{Conversions}.

(** The constraints [ge=] and [le=] of [Field], each optional. *)
Definition int_in (ge le : option Z) (z : Z) : bool :=
  match ge with Some lo => lo <=? z | None => true end
  && match le with Some hi => z <=? hi | None => true end.

Definition float_in (ge le : option float) (f : float) : bool :=
  match ge with Some lo => PrimFloat.leb lo f | None => true end
  && match le with Some hi => PrimFloat.leb f hi | None => true end.

(** [int = Field(..., ge=, le=)] *)
Definition Int (ge le : option Z) (v : pyval) : option Z :=
  z ← to_int v;
  if int_in ge le z then Some z else None.

(** [float = Field(..., ge=, le=)] *)
Definition Float (ge le : option float) (v : pyval) : option float :=
  f ← to_float v;
  if float_in ge le f then Some f else None.

(** [str = Field(...)] and [bool = Field(...)] *)
Definition Str (v : pyval) : option string := to_str v.
Definition Bool (v : pyval) : option bool := to_bool v.

(** A required field ([Field(...)]): the key must be there. *)
Definition required {A} (d : list (string * pyval)) (key : string)
    (validator : pyval -> option A) : option A :=
  v ← dict_get d key;
  validator v.

(** A required field with an alias in a model with [populate_by_name]: the
    alias is looked up first, then the field's own name. *)
Definition required_alias {A} (d : list (string * pyval)) (alias name : string)
    (validator : pyval -> option A) : option A :=
  v ← match dict_get d alias with
       | Some v => Some v
       | None => dict_get d name
       end;
  validator v.

(** [Optional[T] = Field(None, ...)]: a missing key and [None] both give
    [None]; any other value is validated as a [T]. *)
Definition optional {A} (d : list (string * pyval)) (key : string)
    (validator : pyval -> option A) : option (option A) :=
  match dict_get d key with
  | None => Some None
  | Some PNone => Some None
  | Some v => a ← validator v; Some (Some a)
  end.

(** [List[T]] of models: a list, each element validated. *)
Definition List_of {A} (validator : pyval -> option A) (v : pyval)
    : option (list A) :=
  match v with
  | PList l => mapM validator l
  | _ => None
  end.

End Fields.
End pydantic.

(* ===================================================================== *)
(** ** schemas *)
(* ===================================================================== *)

Module schemas.

(** *** schemas/tactical.py *)
Module tactical.

Module HeatmapPoint.
Record t : Type := { x : Z; y : Z; intensity : float }.

Definition model_validate `{Conversions} (obj : pyval) : option t :=
  match obj with
  | PDict d =>
      x ← pydantic.required d "x" (pydantic.Int (Some 0) (Some 100));
      y ← pydantic.required d "y" (pydantic.Int (Some 0) (Some 100));
      intensity ← pydantic.required d "intensity"
                    (pydantic.Float (Some 0%float) (Some 1%float));
      Some {| x := x; y := y; intensity := intensity |}
  | _ => None
  end.
End HeatmapPoint.

Module PassConnection.
Record t : Type := { from_player : Z; to_player : Z; count : Z }.

Definition model_validate `{Conversions} (obj : pyval) : option t :=
  match obj with
  | PDict d =>
      from_player ← pydantic.required_alias d "from" "from_player"
                      (pydantic.Int None None);
      to_player ← pydantic.required_alias d "to" "to_player"
                    (pydantic.Int None None);
      count ← pydantic.required d "count" (pydantic.Int (Some 0) None);
      Some {| from_player := from_player; to_player := to_player;
              count := count |}
  | _ => None
  end.
End PassConnection.

Module PassNetwork.
Record t : Type := { passes : list PassConnection.t }.

Definition model_validate `{Conversions} (obj : pyval) : option t :=
  match obj with
  | PDict d =>
      passes ← pydantic.required d "passes"
                 (pydantic.List_of PassConnection.model_validate);
      Some {| passes := passes |}
  | _ => None
  end.
End PassNetwork.

Module TrackingPoint.
Record t : Type := {
  player_id : Z;
  timestamp : float;
  x : float;
  y : float;
  speed : option float
}.

Definition model_validate `{Conversions} (obj : pyval) : option t :=
  match obj with
  | PDict d =>
      player_id ← pydantic.required d "player_id" (pydantic.Int None None);
      timestamp ← pydantic.required d "timestamp"
                    (pydantic.Float (Some 0%float) None);
      x ← pydantic.required d "x"
            (pydantic.Float (Some 0%float) (Some 100%float));
      y ← pydantic.required d "y"
            (pydantic.Float (Some 0%float) (Some 100%float));
      speed ← pydantic.optional d "speed" (pydantic.Float (Some 0%float) None);
      Some {| player_id := player_id; timestamp := timestamp;
              x := x; y := y; speed := speed |}
  | _ => None
  end.
End TrackingPoint.

End tactical.

(** *** schemas/decisions.py *)
Module decisions.

(** [class SeverityLevel(str, Enum)] *)
Inductive SeverityLevel : Type := MINOR | MAJOR | YELLOW_CARD | RED_CARD.

Definition SeverityLevel_value (s : SeverityLevel) : string :=
  match s with
  | MINOR => "minor"
  | MAJOR => "major"
  | YELLOW_CARD => "yellow_card"
  | RED_CARD => "red_card"
  end.

Definition SeverityLevel_members : list SeverityLevel :=
  [MINOR; MAJOR; YELLOW_CARD; RED_CARD].

Module OffsideEvent.
Record t : Type := {
  player_id : Z;
  timestamp : float;
  x : float;
  y : float;
  is_correct : bool
}.

Definition model_validate `{Conversions} (obj : pyval) : option t :=
  match obj with
  | PDict d =>
      player_id ← pydantic.required d "player_id" (pydantic.Int None None);
      timestamp ← pydantic.required d "timestamp"
                    (pydantic.Float (Some 0%float) None);
      x ← pydantic.required d "x"
            (pydantic.Float (Some 0%float) (Some 100%float));
      y ← pydantic.required d "y"
            (pydantic.Float (Some 0%float) (Some 100%float));
      is_correct ← pydantic.required d "is_correct" pydantic.Bool;
      Some {| player_id := player_id; timestamp := timestamp;
              x := x; y := y; is_correct := is_correct |}
  | _ => None
  end.
End OffsideEvent.

Module FoulEvent.
Record t : Type := {
  foul_id : Z;
  player_committed : Z;
  player_suffered : Z;
  timestamp : float;
  x : float;
  y : float;
  severity : string;
  is_correct : bool
}.

Definition model_validate `{Conversions} (obj : pyval) : option t :=
  match obj with
  | PDict d =>
      foul_id ← pydantic.required d "foul_id" (pydantic.Int None None);
      player_committed ← pydantic.required d "player_committed"
                           (pydantic.Int None None);
      player_suffered ← pydantic.required d "player_suffered"
                          (pydantic.Int None None);
      timestamp ← pydantic.required d "timestamp"
                    (pydantic.Float (Some 0%float) None);
      x ← pydantic.required d "x"
            (pydantic.Float (Some 0%float) (Some 100%float));
      y ← pydantic.required d "y"
            (pydantic.Float (Some 0%float) (Some 100%float));
      severity ← pydantic.required d "severity" pydantic.Str;
      is_correct ← pydantic.required d "is_correct" pydantic.Bool;
      Some {| foul_id := foul_id; player_committed := player_committed;
              player_suffered := player_suffered; timestamp := timestamp;
              x := x; y := y; severity := severity;
              is_correct := is_correct |}
  | _ => None
  end.
End FoulEvent.

Module GoalPrediction.
Record t : Type := {
  shot_x : float;
  shot_y : float;
  xG : float;
  is_goal : bool
}.

Definition model_validate `{Conversions} (obj : pyval) : option t :=
  match obj with
  | PDict d =>
      shot_x ← pydantic.required d "shot_x"
                 (pydantic.Float (Some 0%float) (Some 100%float));
      shot_y ← pydantic.required d "shot_y"
                 (pydantic.Float (Some 0%float) (Some 100%float));
      xG ← pydantic.required d "xG"
             (pydantic.Float (Some 0%float) (Some 1%float));
      is_goal ← pydantic.required d "is_goal" pydantic.Bool;
      Some {| shot_x := shot_x; shot_y := shot_y; xG := xG;
              is_goal := is_goal |}
  | _ => None
  end.
End GoalPrediction.

End decisions.

End schemas.

(* ===================================================================== *)
(** ** main.py: the application *)
(* ===================================================================== *)

Module main.

Definition root : Py pyval :=
  ret (PDict [ ("message", PStr "Welcome to Football Analytics API");
               ("version", PStr "1.0.0");
               ("docs", PStr "/docs") ]).

Definition health_check : Py pyval :=
  ret (PDict [ ("status", PStr "healthy") ]).

(** The requests the application routes: the two endpoints of [main], the
    routers included under [/api/tactical] and [/api/decisions], and the
    upload router under [/api]. A POST to the upload route either carries a
    file part named [video], which the framework hands to the function as
    an [UploadFile], or it does not (the field is missing, or is a part
    without a file name): the framework then answers it itself, with its
    list of validation errors, and the function is not called. The file
    parts of a request all have a file name; what the function does with an
    [UploadFile] that has none is part of the function all the same. *)
Inductive request : Type :=
| GET_root
| GET_health
| GET_api_tactical (e : routes.tactical.endpoint)
| GET_api_decisions (e : routes.decisions.endpoint)
| POST_api_upload_video (video : routes.upload.UploadFile)
| POST_api_upload_video_unprocessable (errors : pyval).

Section App.
Context (json_loads : string -> load_error + pyval).

Definition dispatch (req : request) : Py pyval :=
  match req with
  | GET_root => root
  | GET_health => health_check
  | GET_api_tactical e =>
      let '(rm, f) := routes.tactical.router json_loads e in api_route rm f
  | GET_api_decisions e =>
      let '(rm, f) := routes.decisions.router json_loads e in api_route rm f
  | POST_api_upload_video video =>
      let '(rm, f) := routes.upload.router video in api_route rm f
  | POST_api_upload_video_unprocessable errors =>
      raise (RequestValidationError errors)
  end.

(** One request served: the response sent and the fixture directory left. *)
Definition app (req : request) (fs : FileSystem) : Response * FileSystem :=
  let '(r, fs') := dispatch req fs in (respond r, fs').

End App.
End main.

(* ===================================================================== *)
(** ** A JSON reader for the examples *)
(* ===================================================================== *)

(** The properties below hold for every decoder [json_loads]. To run the
    service on concrete fixture files, this module checks that the bytes are
    UTF-8 and reads the fragment of JSON the examples use: [null], [true],
    [false], integers, decimals of at most fifteen digits without exponent,
    the constants [NaN], [Infinity] and [-Infinity] that Python reads too,
    strings without escapes, arrays and objects. A text outside the fragment
    is reported as not JSON, so nothing is proved about Python's decoder
    through it. *)
Module basic_json.

Definition is_ws (b : byte) : bool :=
  match b with
  | x20 | x09 | x0a | x0d => true
  | _ => false
  end.

Fixpoint skip_ws (s : list byte) : list byte :=
  match s with
  | b :: s' => if is_ws b then skip_ws s' else s
  | [] => []
  end.

Definition digit (b : byte) : option Z :=
  match b with
  | x30 => Some 0 | x31 => Some 1 | x32 => Some 2 | x33 => Some 3
  | x34 => Some 4 | x35 => Some 5 | x36 => Some 6 | x37 => Some 7
  | x38 => Some 8 | x39 => Some 9
  | _ => None
  end.

(** The digits at the head of [s]: their value after [acc], how many there
    were, and the rest. *)
Fixpoint digits (s : list byte) (acc : Z) (n : nat) : Z * nat * list byte :=
  match s with
  | b :: s' =>
      match digit b with
      | Some d => digits s' (10 * acc + d) (S n)
      | None => (acc, n, s)
      end
  | [] => (acc, n, [])
  end.

Definition float_of_Z (z : Z) : float :=
  if z <? 0 then PrimFloat.opp (PrimFloat.of_uint63 (Uint63.of_Z (- z)))
  else PrimFloat.of_uint63 (Uint63.of_Z z).

(** An unsigned number: no leading zero; with a fraction it is the float
    nearest to the decimal (numerator and power of ten are both exact). *)
Definition unsigned (s : list byte) : option (pyval * list byte) :=
  let '(i, n, r) := digits s 0 0%nat in
  match n, s with
  | O, _ => None
  | S (S _), x30 :: _ => None
  | _, _ =>
      match r with
      | x2e :: r' =>
          let '(m, k, r'') := digits r' i 0%nat in
          match k with
          | O => None
          | _ => if (n + k <=? 15)%nat
                 then Some (PFloat (PrimFloat.div (float_of_Z m)
                                      (float_of_Z (10 ^ Z.of_nat k))), r'')
                 else None
          end
      | x65 :: _ | x45 :: _ => None
      | _ => Some (PInt i, r)
      end
  end.

(** [s] without the bytes of [literal] at its head. *)
Fixpoint after (literal s : list byte) : option (list byte) :=
  match literal, s with
  | [], _ => Some s
  | c :: literal', b :: s' =>
      if Byte.eqb c b then after literal' s' else None
  | _ :: _, [] => None
  end.

(** The constants Python's decoder reads beside JSON's own: [NaN],
    [Infinity] and [-Infinity]. *)
Definition constant (s : list byte) : option (pyval * list byte) :=
  match after (list_byte_of_string "NaN") s with
  | Some r => Some (PFloat PrimFloat.nan, r)
  | None =>
      match after (list_byte_of_string "Infinity") s with
      | Some r => Some (PFloat PrimFloat.infinity, r)
      | None =>
          match after (list_byte_of_string "-Infinity") s with
          | Some r => Some (PFloat PrimFloat.neg_infinity, r)
          | None => None
          end
      end
  end.

Definition number (s : list byte) : option (pyval * list byte) :=
  match constant s with
  | Some found => Some found
  | None =>
      match s with
      | x2d :: s' =>
          match unsigned s' with
          | Some (PInt i, r) => Some (PInt (- i), r)
          | Some (PFloat f, r) => Some (PFloat (PrimFloat.opp f), r)
          | _ => None
          end
      | _ => unsigned s
      end
  end.

(** The characters of a string up to its closing quote. *)
Fixpoint chars (s : list byte) (acc : list byte) : option (string * list byte) :=
  match s with
  | x22 :: s' => Some (string_of_list_byte (rev acc), s')
  | x5c :: _ => None
  | b :: s' => if (Byte.to_N b <? 32)%N then None else chars s' (b :: acc)
  | [] => None
  end.

(** [d[key] = v]: a key already present keeps its place. *)
Fixpoint dict_set (d : list (string * pyval)) (key : string) (v : pyval)
    : list (string * pyval) :=
  match d with
  | [] => [(key, v)]
  | (k, w) :: d' =>
      if String.eqb k key then (k, v) :: d' else (k, w) :: dict_set d' key v
  end.

Fixpoint value (fuel : nat) (s : list byte) : option (pyval * list byte) :=
  match fuel with
  | O => None
  | S fuel =>
      match skip_ws s with
      | x6e :: x75 :: x6c :: x6c :: r => Some (PNone, r)
      | x74 :: x72 :: x75 :: x65 :: r => Some (PBool true, r)
      | x66 :: x61 :: x6c :: x73 :: x65 :: r => Some (PBool false, r)
      | x22 :: r =>
          match chars r [] with
          | Some (str, r') => Some (PStr str, r')
          | None => None
          end
      | x5b :: r =>
          match skip_ws r with
          | x5d :: r' => Some (PList [], r')
          | _ => elements fuel r []
          end
      | x7b :: r =>
          match skip_ws r with
          | x7d :: r' => Some (PDict [], r')
          | _ => members fuel r []
          end
      | s' => number s'
      end
  end
with elements (fuel : nat) (s : list byte) (acc : list pyval)
    : option (pyval * list byte) :=
  match fuel with
  | O => None
  | S fuel =>
      match value fuel s with
      | Some (v, r) =>
          match skip_ws r with
          | x2c :: r' => elements fuel r' (v :: acc)
          | x5d :: r' => Some (PList (rev (v :: acc)), r')
          | _ => None
          end
      | None => None
      end
  end
with members (fuel : nat) (s : list byte) (acc : list (string * pyval))
    : option (pyval * list byte) :=
  match fuel with
  | O => None
  | S fuel =>
      match skip_ws s with
      | x22 :: r =>
          match chars r [] with
          | Some (key, r') =>
              match skip_ws r' with
              | x3a :: r'' =>
                  match value fuel r'' with
                  | Some (v, r3) =>
                      match skip_ws r3 with
                      | x2c :: r4 => members fuel r4 (dict_set acc key v)
                      | x7d :: r4 => Some (PDict (dict_set acc key v), r4)
                      | _ => None
                      end
                  | None => None
                  end
              | _ => None
              end
          | None => None
          end
      | _ => None
      end
  end.

Definition parse (text : string) : option pyval :=
  let s := list_byte_of_string text in
  match value (2 * length s + 2) s with
  | Some (v, r) =>
      match skip_ws r with
      | [] => Some v
      | _ => None
      end
  | None => None
  end.

(** Well-formed UTF-8: [pending] continuation bytes are still due, the next
    one within [lo .. hi]. *)
Fixpoint utf8_from (pending : nat) (lo hi : N) (s : list byte) : bool :=
  match s with
  | [] => match pending with O => true | S _ => false end
  | b :: s' =>
      let n := Byte.to_N b in
      match pending with
      | O =>
          if (n <=? 127)%N then utf8_from 0 128 191 s'
          else if (n <? 194)%N then false
          else if (n <=? 223)%N then utf8_from 1 128 191 s'
          else if (n =? 224)%N then utf8_from 2 160 191 s'
          else if (n =? 237)%N then utf8_from 2 128 159 s'
          else if (n <=? 239)%N then utf8_from 2 128 191 s'
          else if (n =? 240)%N then utf8_from 3 144 191 s'
          else if (n <=? 243)%N then utf8_from 3 128 191 s'
          else if (n =? 244)%N then utf8_from 3 128 143 s'
          else false
      | S pending' =>
          if ((lo <=? n) && (n <=? hi))%N then utf8_from pending' 128 191 s'
          else false
      end
  end.

Definition utf8 (content : string) : bool :=
  utf8_from 0 128 191 (list_byte_of_string content).

Definition loads (content : string) : load_error + pyval :=
  if utf8 content then
    match parse content with
    | Some v => inr v
    | None => inl not_json
    end
  else inl not_utf8.

(** A quoted JSON string, for writing fixture texts. *)
Definition q (s : string) : string :=
  String (ascii_of_byte x22) (s +:+ String (ascii_of_byte x22) EmptyString).

End basic_json.

(* ===================================================================== *)
(** ** Vocabulary of the properties *)
(* ===================================================================== *)

(** The six data endpoints of the API. *)
Inductive data_endpoint : Type :=
| Tactical (e : routes.tactical.endpoint)
| Decisions (e : routes.decisions.endpoint).

Definition GET (e : data_endpoint) : main.request :=
  match e with
  | Tactical e => main.GET_api_tactical e
  | Decisions e => main.GET_api_decisions e
  end.

(** The fixture file of each endpoint. *)
Definition fixture (e : data_endpoint) : string :=
  match e with
  | Tactical routes.tactical.heatmap => "heatmap.json"
  | Tactical routes.tactical.pass_network => "pass_network.json"
  | Tactical routes.tactical.tracking => "tracking.json"
  | Decisions routes.decisions.offside => "offside.json"
  | Decisions routes.decisions.fouls => "fouls.json"
  | Decisions routes.decisions.goal_prediction => "goal_prediction.json"
  end.

(** The response model each endpoint's decorator declares. *)
Definition declared_model (json_loads : string -> load_error + pyval)
    (e : data_endpoint) : response_model :=
  match e with
  | Tactical e => fst (routes.tactical.router json_loads e)
  | Decisions e => fst (routes.decisions.router json_loads e)
  end.

(** The function behind each endpoint. *)
Definition handler (json_loads : string -> load_error + pyval)
    (e : data_endpoint) : Py pyval :=
  match e with
  | Tactical e => snd (routes.tactical.router json_loads e)
  | Decisions e => snd (routes.decisions.router json_loads e)
  end.

(** The entity schema that corresponds to each endpoint's data, as the API
    documents it: does the value validate against it? *)
Definition entity_valid `{Conversions} (e : data_endpoint) (v : pyval) : bool :=
  match e with
  | Tactical routes.tactical.heatmap =>
      bool_decide (is_Some
        (pydantic.List_of schemas.tactical.HeatmapPoint.model_validate v))
  | Tactical routes.tactical.pass_network =>
      bool_decide (is_Some (schemas.tactical.PassNetwork.model_validate v))
  | Tactical routes.tactical.tracking =>
      bool_decide (is_Some
        (pydantic.List_of schemas.tactical.TrackingPoint.model_validate v))
  | Decisions routes.decisions.offside =>
      bool_decide (is_Some
        (pydantic.List_of schemas.decisions.OffsideEvent.model_validate v))
  | Decisions routes.decisions.fouls =>
      bool_decide (is_Some
        (pydantic.List_of schemas.decisions.FoulEvent.model_validate v))
  | Decisions routes.decisions.goal_prediction =>
      bool_decide (is_Some (schemas.decisions.GoalPrediction.model_validate v))
  end.

(** The exception that escapes the loader on what a path leads to, if one
    does: the error of opening it, or an error of [json.load] other than
    [json.JSONDecodeError], the one the loader catches. *)
Definition escapes (json_loads : string -> load_error + pyval) (n : node)
    : option exn :=
  match n with
  | Directory => Some IsADirectoryError
  | File false _ => Some PermissionError
  | File true content =>
      match json_loads content with
      | inr _ | inl not_json => None
      | inl e => Some (raised e)
      end
  end.

(** A computation that leaves the fixture directory as it found it. *)
Definition read_only {A} (m : Py A) : Prop :=
  forall fs, final m fs = fs.

(** A float within closed bounds, by the comparisons the constraints use. *)
Definition fge (f lo : float) : Prop := PrimFloat.leb lo f = true.
Definition fle (f hi : float) : Prop := PrimFloat.leb f hi = true.
Definition fbetween (lo hi f : float) : Prop := fge f lo /\ fle f hi.

(** The server's answers to an exception. *)
Definition http_error (code : Z) (detail : string) : Response :=
  {| status := code; body := PDict [("detail", PStr detail)] |}.

Definition internal_server_error : Response :=
  {| status := 500; body := PStr "Internal Server Error" |}.

(** *** Fixtures and uploads of the examples *)
Module examples.
Import basic_json.

(** [[{"x": 500, "y": 50, "intensity": 0.7}]]: a heatmap point whose [x] is
    off the pitch. *)
Definition heatmap_off_pitch : string :=
  "[{" +:+ q "x" +:+ ": 500, " +:+ q "y" +:+ ": 50, "
       +:+ q "intensity" +:+ ": 0.7}]".

(** [[{"x": 20, "y": 50, "intensity": 0.7}]] *)
Definition heatmap_good : string :=
  "[{" +:+ q "x" +:+ ": 20, " +:+ q "y" +:+ ": 50, "
       +:+ q "intensity" +:+ ": 0.7}]".


(** [[1, 2]]: valid JSON, a list where the route declares an object. *)
Definition pass_network_as_list : string := "[1, 2]".

(** The values Python's decoder gives for these texts. *)
Definition heatmap_off_pitch_value : pyval :=
  PList [PDict [ ("x", PInt 500); ("y", PInt 50);
                 ("intensity", PFloat 0x1.6666666666666p-1%float) ]].

Definition heatmap_good_value : pyval :=
  PList [PDict [ ("x", PInt 20); ("y", PInt 50);
                 ("intensity", PFloat 0x1.6666666666666p-1%float) ]].

Definition fs_with (name text : string) : FileSystem :=
  {[ name := File true text ]}.

(** [[{"x": NaN, "y": 50}]]: a heatmap point whose [x] is not a number. *)
Definition heatmap_nan : string :=
  "[{" +:+ q "x" +:+ ": NaN, " +:+ q "y" +:+ ": 50}]".

(** A file that is not UTF-8: the single byte [0xff]. *)
Definition not_utf8_bytes : string := String (ascii_of_byte xff) EmptyString.

Definition mp4 : routes.upload.UploadFile :=
  {| routes.upload.filename := Some "match.mp4";
     routes.upload.content_type := Some "video/mp4";
     routes.upload.file := "" |}.

Definition png : routes.upload.UploadFile :=
  {| routes.upload.filename := Some "pitch.png";
     routes.upload.content_type := Some "image/png";
     routes.upload.file := "" |}.

Definition untyped : routes.upload.UploadFile :=
  {| routes.upload.filename := Some "clip.bin";
     routes.upload.content_type := None;
     routes.upload.file := "" |}.

(** The foul of the schema's own example, with a severity to choose. *)
Definition foul (severity : string) : pyval :=
  PDict [ ("foul_id", PInt 1);
          ("player_committed", PInt 5);
          ("player_suffered", PInt 10);
          ("timestamp", PFloat 180.5%float);
          ("x", PFloat 50%float);
          ("y", PFloat 30%float);
          ("severity", PStr severity);
          ("is_correct", PBool true) ].

End examples.

(* ===================================================================== *)
(** ** Vocabulary of the further properties *)
(* ===================================================================== *)

(** Two dicts that bind the same values to the given keys. *)
Definition agree_on (keys : list string) (d d' : list (string * pyval)) : Prop :=
  Forall (fun k => dict_get d k = dict_get d' k) keys.

(** A value that is a dict binding every one of the given keys. *)
Definition has_keys (keys : list string) (v : pyval) : Prop :=
  exists d, v = PDict d /\ Forall (fun k => is_Some (dict_get d k)) keys.

(** A float that is a number (neither NaN nor an infinity), and a float
    that is not NaN, read off its IEEE 754 decomposition. *)
Definition finite_float (f : float) : Prop :=
  match Prim2SF f with
  | S754_zero _ | S754_finite _ _ _ => True
  | S754_infinity _ | S754_nan => False
  end.

Definition not_nan (f : float) : Prop := Prim2SF f <> S754_nan.

(** *** The route table

    The method and path of each route: the path of the decorator after the
    prefix under which [main] includes the router. *)
Module urls.

Inductive method : Type := HTTP_GET | HTTP_POST.

Definition tactical_path (e : routes.tactical.endpoint) : string :=
  match e with
  | routes.tactical.heatmap => "/heatmap"
  | routes.tactical.pass_network => "/pass-network"
  | routes.tactical.tracking => "/tracking"
  end.

Definition decisions_path (e : routes.decisions.endpoint) : string :=
  match e with
  | routes.decisions.offside => "/offside"
  | routes.decisions.fouls => "/fouls"
  | routes.decisions.goal_prediction => "/goal-prediction"
  end.

Definition upload_path : string := "/upload-video".

Definition url (req : main.request) : method * string :=
  match req with
  | main.GET_root => (HTTP_GET, "/")
  | main.GET_health => (HTTP_GET, "/health")
  | main.GET_api_tactical e => (HTTP_GET, "/api/tactical" +:+ tactical_path e)
  | main.GET_api_decisions e =>
      (HTTP_GET, "/api/decisions" +:+ decisions_path e)
  | main.POST_api_upload_video _
  | main.POST_api_upload_video_unprocessable _ =>
      (HTTP_POST, "/api" +:+ upload_path)
  end.

(** Two requests for the same route: the same endpoint, or two uploads. *)
Definition same_route (req req' : main.request) : Prop :=
  match req, req' with
  | (main.POST_api_upload_video _ | main.POST_api_upload_video_unprocessable _),
    (main.POST_api_upload_video _ | main.POST_api_upload_video_unprocessable _)
    => True
  | _, _ => req = req'
  end.

End urls.

(* ===================================================================== *)
(** ** The request monad: equations and frame rules *)
(* ===================================================================== *)

Section MonadFacts.
Context {A B : Type}.

Lemma bind_ret (a : A) (k : A -> Py B) (fs : FileSystem) :
  (ret a ≫= k) fs = k a fs.
Proof. reflexivity. Qed.

Lemma bind_raise (e : exn) (k : A -> Py B) (fs : FileSystem) :
  (raise e ≫= k) fs = (inl e, fs).
Proof. reflexivity. Qed.

Lemma bind_run (m : Py A) (k : A -> Py B) (fs fs' : FileSystem) (a : A) :
  m fs = (inr a, fs') -> (m ≫= k) fs = k a fs'.
Proof. intros Hm. unfold mbind, Py_bind, bind. now rewrite Hm. Qed.

Lemma bind_fail (m : Py A) (k : A -> Py B) (fs fs' : FileSystem) (e : exn) :
  m fs = (inl e, fs') -> (m ≫= k) fs = (inl e, fs').
Proof. intros Hm. unfold mbind, Py_bind, bind. now rewrite Hm. Qed.

Lemma read_only_ret (a : A) : read_only (ret a).
Proof. intros fs. reflexivity. Qed.

Lemma read_only_raise (e : exn) : read_only (@raise A e).
Proof. intros fs. reflexivity. Qed.

Lemma read_only_bind (m : Py A) (k : A -> Py B) :
  read_only m -> (forall a, read_only (k a)) -> read_only (m ≫= k).
Proof.
  intros Hm Hk fs. unfold final, mbind, Py_bind, bind.
  specialize (Hm fs). unfold final in Hm.
  destruct (m fs) as [[e | a] fs1]; simpl in *; subst fs1.
  - reflexivity.
  - apply Hk.
Qed.

Lemma read_only_try_except (m : Py A) (handler : exn -> Py A) :
  read_only m -> (forall e, read_only (handler e)) ->
  read_only (try_except m handler).
Proof.
  intros Hm Hh fs. unfold final, try_except.
  specialize (Hm fs). unfold final in Hm.
  destruct (m fs) as [[e | a] fs1]; simpl in *; subst fs1.
  - apply Hh.
  - reflexivity.
Qed.

End MonadFacts.

Lemma read_only_path_exists (filename : string) :
  read_only (path_exists filename).
Proof. intros fs. reflexivity. Qed.

Lemma read_only_open_read (filename : string) :
  read_only (open_read filename).
Proof.
  intros fs. unfold final, open_read.
  destruct (fs !! filename) as [[| [] content] |]; reflexivity.
Qed.

Lemma read_only_api_route (rm : response_model) (endpoint : Py pyval) :
  read_only endpoint -> read_only (api_route rm endpoint).
Proof.
  intros He. unfold api_route. apply read_only_bind; [exact He |].
  intros v. destruct (validate_response rm v).
  - apply read_only_ret.
  - apply read_only_raise.
Qed.

Create HintDb frame.
#[export] Hint Resolve read_only_ret read_only_raise read_only_path_exists
  read_only_open_read read_only_api_route : frame.

(* ===================================================================== *)
(** ** Serialisation *)
(* ===================================================================== *)


(** Serialisation keeps the container: a dict stays a dict with the same
    keys, a list keeps its length. *)
Lemma jsonable_shape (rm : response_model) (v : pyval) :
  validate_response rm v = true -> validate_response rm (jsonable v) = true.
Proof.
  intros Hv. destruct rm; cbn [validate_response] in *.
  - destruct v as [| | | | | l |]; try discriminate Hv.
    cbn [jsonable]. induction l as [| w l IH]; [reflexivity |].
    cbn [forallb map] in *. apply andb_prop in Hv as [Hw Hl].
    rewrite (IH Hl), andb_true_r.
    destruct w; try discriminate Hw. reflexivity.
  - destruct v; try discriminate Hv. reflexivity.
Qed.

(* ===================================================================== *)
(** ** The JSON loader *)
(* ===================================================================== *)

Section LoaderFacts.
Context (json_loads : string -> load_error + pyval).

(** The runs of the loader of [routes/decisions.py]. *)
Lemma decisions_load_absent (filename : string) (fs : FileSystem) :
  fs !! filename = None ->
  routes.decisions.load_json_file json_loads filename fs
  = (inl (HTTPException 404 ("Data file " +:+ filename +:+ " not found")), fs).
Proof.
  intros Hfs. unfold routes.decisions.load_json_file.
  erewrite bind_run
    by (unfold path_exists; rewrite Hfs; reflexivity).
  rewrite bool_decide_eq_false_2 by (intros [? ?]; discriminate).
  reflexivity.
Qed.

(** Once the path exists, the loader is the guarded read. *)
Lemma decisions_load_found (filename : string) (n : node) (fs : FileSystem) :
  fs !! filename = Some n ->
  routes.decisions.load_json_file json_loads filename fs
  = try_except
      (f ← open_read filename; routes.decisions.json_load json_loads f)
      (fun e =>
         match e with
         | JSONDecodeError =>
             raise (HTTPException 500 ("Error parsing " +:+ filename))
         | _ => raise e
         end) fs.
Proof.
  intros Hfs. unfold routes.decisions.load_json_file.
  erewrite bind_run
    by (unfold path_exists; rewrite Hfs; reflexivity).
  rewrite bool_decide_eq_true_2 by (now exists n).
  reflexivity.
Qed.

Lemma decisions_load_malformed (filename text : string) (fs : FileSystem) :
  fs !! filename = Some (File true text) -> json_loads text = inl not_json ->
  routes.decisions.load_json_file json_loads filename fs
  = (inl (HTTPException 500 ("Error parsing " +:+ filename)), fs).
Proof.
  intros Hfs Hjson. rewrite (decisions_load_found _ _ _ Hfs).
  unfold try_except.
  erewrite bind_run by (unfold open_read; rewrite Hfs; reflexivity).
  unfold routes.decisions.json_load. rewrite Hjson. reflexivity.
Qed.

Lemma decisions_load_parsed (filename text : string) (v : pyval)
    (fs : FileSystem) :
  fs !! filename = Some (File true text) -> json_loads text = inr v ->
  routes.decisions.load_json_file json_loads filename fs = (inr v, fs).
Proof.
  intros Hfs Hjson. rewrite (decisions_load_found _ _ _ Hfs).
  unfold try_except.
  erewrite bind_run by (unfold open_read; rewrite Hfs; reflexivity).
  unfold routes.decisions.json_load. rewrite Hjson. reflexivity.
Qed.

(** What the loader does not catch escapes it as it was raised. *)
Lemma decisions_load_escapes (filename : string) (n : node) (x : exn)
    (fs : FileSystem) :
  fs !! filename = Some n -> escapes json_loads n = Some x ->
  routes.decisions.load_json_file json_loads filename fs = (inl x, fs).
Proof.
  intros Hfs Hesc. rewrite (decisions_load_found _ _ _ Hfs).
  unfold try_except, mbind, Py_bind, bind, open_read. rewrite Hfs.
  destruct n as [| [] content]; cbn [escapes] in Hesc.
  - injection Hesc as <-. reflexivity.
  - unfold routes.decisions.json_load.
    destruct (json_loads content) as [[] | v];
      first [discriminate Hesc | injection Hesc as <-; reflexivity].
  - injection Hesc as <-. reflexivity.
Qed.

(** An escaped exception is none the server answers with its own status:
    the answer is the plain 500. *)
Lemma escapes_plain_500 (n : node) (x : exn) :
  escapes json_loads n = Some x ->
  respond (inl x) = {| status := 500; body := PStr "Internal Server Error" |}
  /\ (forall code detail, x <> HTTPException code detail).
Proof.
  destruct n as [| [] content]; cbn [escapes]; intros Hesc.
  - injection Hesc as <-. split; [reflexivity | discriminate].
  - destruct (json_loads content) as [[] | v];
      first [discriminate Hesc
            | injection Hesc as <-; split; [reflexivity | discriminate]].
  - injection Hesc as <-. split; [reflexivity | discriminate].
Qed.

(** The loader of [routes/tactical.py] is the same function. *)
Lemma tactical_load_eq :
  routes.tactical.load_json_file json_loads
  = routes.decisions.load_json_file json_loads.
Proof. reflexivity. Qed.

Lemma read_only_load_json_file (filename : string) :
  read_only (routes.decisions.load_json_file json_loads filename).
Proof.
  unfold routes.decisions.load_json_file.
  apply read_only_bind; [auto with frame |].
  intros found. destruct (negb found); [auto with frame |].
  apply read_only_try_except.
  - apply read_only_bind; [auto with frame |].
    intros f. unfold routes.decisions.json_load.
    destruct (json_loads f); auto with frame.
  - intros []; auto with frame.
Qed.

(** Case analysis on a fixture path: nothing there, a readable file that is
    malformed JSON, a readable file that decodes, or something on which the
    loader fails with an exception it does not catch. *)
Lemma fixture_cases (filename : string) (fs : FileSystem) :
  fs !! filename = None
  \/ (exists text, fs !! filename = Some (File true text)
                   /\ json_loads text = inl not_json)
  \/ (exists text v, fs !! filename = Some (File true text)
                     /\ json_loads text = inr v)
  \/ (exists n x, fs !! filename = Some n /\ escapes json_loads n = Some x).
Proof.
  destruct (fs !! filename) as [n |] eqn:Hfs; [| now left].
  right. destruct n as [| [] content].
  - right. right. now exists Directory, IsADirectoryError.
  - destruct (json_loads content) as [e | v] eqn:Hjson.
    + destruct e.
      * right. right. exists (File true content), UnicodeDecodeError.
        split; [reflexivity |]. cbn [escapes]. now rewrite Hjson.
      * left. now exists content.
      * right. right. exists (File true content), RecursionError.
        split; [reflexivity |]. cbn [escapes]. now rewrite Hjson.
      * right. right. exists (File true content), ValueError.
        split; [reflexivity |]. cbn [escapes]. now rewrite Hjson.
    + right. left. now exists content, v.
  - right. right. now exists (File false content), PermissionError.
Qed.

End LoaderFacts.

(** The outcomes of the loader, as the code has them. For every file name,
    it fails with status 404 exactly when nothing exists at the path, and
    with status 500 ("Error parsing") exactly when the path is a readable
    file that [json.load] rejects as malformed JSON; when [json.load]
    returns a value, the loader returns it. The messages name the file. *)
Theorem load_json_file_outcomes (json_loads : string -> load_error + pyval)
    (filename : string) (fs : FileSystem) :
  let r := result (routes.decisions.load_json_file json_loads filename) fs in
  ((exists detail, r = inl (HTTPException 404 detail))
     <-> fs !! filename = None)
  /\ ((exists detail, r = inl (HTTPException 500 detail))
     <-> exists text, fs !! filename = Some (File true text)
                      /\ json_loads text = inl not_json)
  /\ (fs !! filename = None ->
      r = inl (HTTPException 404 ("Data file " +:+ filename +:+ " not found")))
  /\ (forall text, fs !! filename = Some (File true text) ->
      json_loads text = inl not_json ->
      r = inl (HTTPException 500 ("Error parsing " +:+ filename)))
  /\ (forall text v, fs !! filename = Some (File true text) ->
      json_loads text = inr v -> r = inr v).
Proof.
  cbv zeta. unfold result.
  destruct (fixture_cases json_loads filename fs)
    as [Habs | [(text & Hfs & Hjson) | [(text & v & Hfs & Hjson)
       | (n & x & Hfs & Hesc)]]].
  - rewrite (decisions_load_absent _ _ _ Habs). cbn [fst].
    split; [| split; [| split; [| split]]].
    + split; [intros _; exact Habs | intros _; eauto].
    + split.
      * intros (detail & Hd). discriminate Hd.
      * intros (text & Hfs & _). congruence.
    + reflexivity.
    + intros text Hfs. congruence.
    + intros text v Hfs. congruence.
  - rewrite (decisions_load_malformed _ _ _ _ Hfs Hjson). cbn [fst].
    split; [| split; [| split; [| split]]].
    + split.
      * intros (detail & Hd). discriminate Hd.
      * congruence.
    + split; [intros _; eauto | intros _; eauto].
    + congruence.
    + reflexivity.
    + intros text' v Hfs' Hjson'. congruence.
  - rewrite (decisions_load_parsed _ _ _ _ _ Hfs Hjson). cbn [fst].
    split; [| split; [| split; [| split]]].
    + split.
      * intros (detail & Hd). discriminate Hd.
      * congruence.
    + split.
      * intros (detail & Hd). discriminate Hd.
      * intros (text' & Hfs' & Hjson'). congruence.
    + congruence.
    + intros text' Hfs' Hjson'. congruence.
    + intros text' v' Hfs' Hjson'. congruence.
  - rewrite (decisions_load_escapes _ _ _ _ _ Hfs Hesc). cbn [fst].
    destruct (escapes_plain_500 json_loads n x Hesc) as [_ Hnot].
    split; [| split; [| split; [| split]]].
    + split.
      * intros (detail & Hd). injection Hd as ->. now destruct (Hnot 404 detail).
      * congruence.
    + split.
      * intros (detail & Hd). injection Hd as ->. now destruct (Hnot 500 detail).
      * intros (text & Hfs' & Hjson). rewrite Hfs' in Hfs.
        injection Hfs as <-. cbn [escapes] in Hesc. rewrite Hjson in Hesc.
        discriminate Hesc.
    + congruence.
    + intros text Hfs' Hjson. rewrite Hfs' in Hfs. injection Hfs as <-.
      cbn [escapes] in Hesc. rewrite Hjson in Hesc. discriminate Hesc.
    + intros text v Hfs' Hjson. rewrite Hfs' in Hfs. injection Hfs as <-.
      cbn [escapes] in Hesc. rewrite Hjson in Hesc. discriminate Hesc.
Qed.

(** C10. The loader of the tactical routes and the loader of the decisions
    routes agree on every file name and every fixture directory: same value
    or same exception (status and message), same directory left behind. *)
Theorem load_json_file_tactical_decisions
    (json_loads : string -> load_error + pyval)
    (filename : string) (fs : FileSystem) :
  routes.tactical.load_json_file json_loads filename fs
  = routes.decisions.load_json_file json_loads filename fs.
Proof.
  destruct (fixture_cases json_loads filename fs)
    as [Habs | [(text & Hfs & Hjson) | [(text & v & Hfs & Hjson)
       | (n & x & Hfs & Hesc)]]].
  - rewrite tactical_load_eq. now rewrite (decisions_load_absent _ _ _ Habs).
  - rewrite tactical_load_eq.
    now rewrite (decisions_load_malformed _ _ _ _ Hfs Hjson).
  - rewrite tactical_load_eq.
    now rewrite (decisions_load_parsed _ _ _ _ _ Hfs Hjson).
  - rewrite tactical_load_eq.
    now rewrite (decisions_load_escapes _ _ _ _ _ Hfs Hesc).
Qed.

(* ===================================================================== *)
(** ** The data routes *)
(* ===================================================================== *)

Section RouteFacts.
Context (json_loads : string -> load_error + pyval).

(** Each endpoint's function is the loader on the endpoint's fixture. *)
Lemma handler_loads_fixture (e : data_endpoint) :
  handler json_loads e
  = routes.decisions.load_json_file json_loads (fixture e).
Proof. destruct e as [[] | []]; reflexivity. Qed.

Lemma dispatch_GET (e : data_endpoint) :
  main.dispatch json_loads (GET e)
  = api_route (declared_model json_loads e) (handler json_loads e).
Proof. destruct e as [[] | []]; reflexivity. Qed.


Lemma app_GET_absent (e : data_endpoint) (fs : FileSystem) :
  fs !! fixture e = None ->
  main.app json_loads (GET e) fs
  = (http_error 404 ("Data file " +:+ fixture e +:+ " not found"), fs).
Proof.
  intros Hfs. unfold main.app. rewrite dispatch_GET, handler_loads_fixture.
  unfold api_route.
  erewrite bind_fail by (apply decisions_load_absent; exact Hfs).
  reflexivity.
Qed.

Lemma app_GET_malformed (e : data_endpoint) (fs : FileSystem) (text : string) :
  fs !! fixture e = Some (File true text) -> json_loads text = inl not_json ->
  main.app json_loads (GET e) fs
  = (http_error 500 ("Error parsing " +:+ fixture e), fs).
Proof.
  intros Hfs Hjson. unfold main.app.
  rewrite dispatch_GET, handler_loads_fixture. unfold api_route.
  erewrite bind_fail by (eapply decisions_load_malformed; eassumption).
  reflexivity.
Qed.

(** A parsed fixture is answered according to the response model alone. *)
Lemma app_GET_parsed (e : data_endpoint) (fs : FileSystem) (text : string)
    (v : pyval) :
  fs !! fixture e = Some (File true text) -> json_loads text = inr v ->
  main.app json_loads (GET e) fs
  = (if validate_response (declared_model json_loads e) v
     then {| status := 200; body := jsonable v |}
     else internal_server_error, fs).
Proof.
  intros Hfs Hjson. unfold main.app.
  rewrite dispatch_GET, handler_loads_fixture. unfold api_route.
  erewrite bind_run by (eapply decisions_load_parsed; eassumption).
  destruct (validate_response (declared_model json_loads e) v); reflexivity.
Qed.

(** An exception that escapes the loader is answered with the plain 500. *)
Lemma app_GET_escapes (e : data_endpoint) (fs : FileSystem) (n : node)
    (x : exn) :
  fs !! fixture e = Some n -> escapes json_loads n = Some x ->
  main.app json_loads (GET e) fs = (internal_server_error, fs).
Proof.
  intros Hfs Hesc. unfold main.app.
  rewrite dispatch_GET, handler_loads_fixture. unfold api_route.
  erewrite bind_fail by (eapply decisions_load_escapes; eassumption).
  now rewrite (proj1 (escapes_plain_500 json_loads n x Hesc)).
Qed.

Lemma read_only_dispatch (req : main.request) :
  read_only (main.dispatch json_loads req).
Proof.
  destruct req as [| | e | e | video | errors].
  - apply read_only_ret.
  - apply read_only_ret.
  - change (read_only (main.dispatch json_loads (GET (Tactical e)))).
    rewrite dispatch_GET, handler_loads_fixture.
    apply read_only_api_route, read_only_load_json_file.
  - change (read_only (main.dispatch json_loads (GET (Decisions e)))).
    rewrite dispatch_GET, handler_loads_fixture.
    apply read_only_api_route, read_only_load_json_file.
  - cbn. apply read_only_api_route. unfold routes.upload.upload_video.
    destruct (_ || _); auto with frame.
  - apply read_only_raise.
Qed.

End RouteFacts.

(** C1 (as amended). What a GET route checks before it returns the loaded
    data is the response model its decorator declares, a list of objects or
    an object, and not the entity schema: a fixture that is valid JSON but
    has not the declared shape is never returned, the answer is the server's
    500. *)
Theorem GET_refuses_fixture_off_response_model
    (json_loads : string -> load_error + pyval) (e : data_endpoint)
    (fs : FileSystem) (text : string) (v : pyval) :
  fs !! fixture e = Some (File true text) ->
  json_loads text = inr v ->
  validate_response (declared_model json_loads e) v = false ->
  main.app json_loads (GET e) fs = (internal_server_error, fs).
Proof.
  intros Hfs Hjson Hshape.
  rewrite (app_GET_parsed json_loads e fs text v Hfs Hjson).
  now rewrite Hshape.
Qed.


(** C8. No request changes the fixture directory: after any GET and after
    any upload the directory is the one the request found. *)
Theorem app_leaves_fixtures_unchanged
    (json_loads : string -> load_error + pyval)
    (req : main.request) (fs : FileSystem) :
  snd (main.app json_loads req fs) = fs.
Proof.
  unfold main.app.
  pose proof (read_only_dispatch json_loads req fs) as Hro.
  unfold final in Hro.
  destruct (main.dispatch json_loads req fs) as [r fs'].
  exact Hro.
Qed.

(** The example fixtures decode as expected, and a fixture directory with
    one file holds it. *)
Lemma loads_heatmap_off_pitch :
  basic_json.loads examples.heatmap_off_pitch
  = inr examples.heatmap_off_pitch_value.
Proof. vm_compute. reflexivity. Qed.



Lemma loads_pass_network_as_list :
  basic_json.loads examples.pass_network_as_list
  = inr (PList [PInt 1; PInt 2]).
Proof. vm_compute. reflexivity. Qed.

Lemma loads_not_utf8 :
  basic_json.loads examples.not_utf8_bytes = inl not_utf8.
Proof. vm_compute. reflexivity. Qed.

Lemma fs_with_lookup (name text : string) :
  examples.fs_with name text !! name = Some (File true text).
Proof. unfold examples.fs_with. apply lookup_singleton_eq. Qed.

(** An [x] of 500 fails [HeatmapPoint], whatever the conversions. *)
Lemma heatmap_off_pitch_invalid `{Conversions} :
  entity_valid (Tactical routes.tactical.heatmap)
    examples.heatmap_off_pitch_value = false.
Proof.
  unfold entity_valid, examples.heatmap_off_pitch_value, pydantic.List_of.
  apply bool_decide_eq_false_2. intros [l Hl].
  cbn in Hl. unfold pydantic.required, pydantic.Int in Hl. cbn in Hl.
  rewrite !to_int_int in Hl. cbn in Hl. discriminate Hl.
Qed.

(** The same point with [x] on the pitch passes it. *)
Lemma heatmap_good_valid :
  @entity_valid exact_types (Tactical routes.tactical.heatmap)
    examples.heatmap_good_value = true.
Proof. vm_compute. reflexivity. Qed.

(** C1, counterexample. The fixture [[{"x": 500, "y": 50, "intensity": 0.7}]]
    is valid JSON and violates the bounds of [HeatmapPoint], and the heatmap
    route returns it as it is with status 200. *)
Lemma heatmap_off_pitch_is_served :
  let fs := examples.fs_with "heatmap.json" examples.heatmap_off_pitch in
  let v := examples.heatmap_off_pitch_value in
  basic_json.loads examples.heatmap_off_pitch = inr v
  /\ (forall C : Conversions,
        @entity_valid C (Tactical routes.tactical.heatmap) v = false)
  /\ main.app basic_json.loads (GET (Tactical routes.tactical.heatmap)) fs
     = ({| status := 200; body := v |}, fs).
Proof.
  cbv zeta. split; [exact loads_heatmap_off_pitch | split].
  - intros C. apply heatmap_off_pitch_invalid.
  - exact (app_GET_parsed basic_json.loads (Tactical routes.tactical.heatmap)
             _ _ _ (fs_with_lookup "heatmap.json" examples.heatmap_off_pitch)
             loads_heatmap_off_pitch).
Qed.

(** C1, witness: [pass_network.json] holding the list [[1, 2]] is answered
    with the server's 500. *)
Lemma GET_refuses_fixture_off_response_model_witness :
  let fs := examples.fs_with "pass_network.json" examples.pass_network_as_list in
  main.app basic_json.loads (GET (Tactical routes.tactical.pass_network)) fs
  = (internal_server_error, fs).
Proof.
  cbv zeta.
  apply (GET_refuses_fixture_off_response_model basic_json.loads
           (Tactical routes.tactical.pass_network) _
           examples.pass_network_as_list (PList [PInt 1; PInt 2])).
  - apply fs_with_lookup.
  - vm_compute. reflexivity.
  - reflexivity.
Defined.



(** A float that is not finite is served as null: the fixture
    [[{"x": NaN, "y": 50}]] is answered with [[{"x": null, "y": 50}]]. *)
Example GET_serves_nan_as_null :
  let fs := examples.fs_with "heatmap.json" examples.heatmap_nan in
  basic_json.loads examples.heatmap_nan
  = inr (PList [PDict [("x", PFloat PrimFloat.nan); ("y", PInt 50)]])
  /\ main.app basic_json.loads (GET (Tactical routes.tactical.heatmap)) fs
     = ({| status := 200;
           body := PList [PDict [("x", PNone); ("y", PInt 50)]] |}, fs).
Proof.
  cbv zeta.
  assert (basic_json.loads examples.heatmap_nan
          = inr (PList [PDict [("x", PFloat PrimFloat.nan); ("y", PInt 50)]]))
    as Hloads by (vm_compute; reflexivity).
  split; [exact Hloads |].
  exact (app_GET_parsed basic_json.loads (Tactical routes.tactical.heatmap)
           _ _ _ (fs_with_lookup "heatmap.json" examples.heatmap_nan) Hloads).
Qed.

(** C3 (the code at the failing inputs). A fixture that is not UTF-8 exists
    and is not valid JSON, and the loader fails on it with
    [UnicodeDecodeError], not with the parse error of status 500; no file has
    the empty name, which leads to the directory, and the loader fails on it
    with [IsADirectoryError], not with status 404. The [except] clause
    catches [json.JSONDecodeError] alone. *)
Lemma load_json_file_beyond_404_and_500 :
  let fs := examples.fs_with "heatmap.json" examples.not_utf8_bytes in
  let dir : FileSystem := {[ EmptyString := Directory ]} in
  fs !! "heatmap.json" = Some (File true examples.not_utf8_bytes)
  /\ basic_json.loads examples.not_utf8_bytes = inl not_utf8
  /\ result (routes.decisions.load_json_file basic_json.loads "heatmap.json") fs
     = inl UnicodeDecodeError
  /\ result (routes.decisions.load_json_file basic_json.loads EmptyString) dir
     = inl IsADirectoryError.
Proof.
  cbv zeta. split; [apply fs_with_lookup | split; [exact loads_not_utf8 |]].
  split.
  - unfold result.
    rewrite (decisions_load_escapes basic_json.loads "heatmap.json"
               (File true examples.not_utf8_bytes) UnicodeDecodeError);
      [reflexivity | apply fs_with_lookup |].
    cbn [escapes]. now rewrite loads_not_utf8.
  - unfold result.
    rewrite (decisions_load_escapes basic_json.loads EmptyString
               Directory IsADirectoryError);
      [reflexivity | apply lookup_singleton_eq | reflexivity].
Qed.

(** The loader on the well-formed heatmap fixture, as an instance. *)
Lemma load_json_file_outcomes_witness :
  result (routes.decisions.load_json_file basic_json.loads "heatmap.json")
    (examples.fs_with "heatmap.json" examples.heatmap_good)
  = inr examples.heatmap_good_value.
Proof.
  apply (proj2 (proj2 (proj2 (proj2
           (load_json_file_outcomes basic_json.loads "heatmap.json"
              (examples.fs_with "heatmap.json" examples.heatmap_good)))))
           examples.heatmap_good).
  - apply fs_with_lookup.
  - vm_compute. reflexivity.
Defined.

(* ===================================================================== *)
(** ** The upload route *)
(* ===================================================================== *)

(** The acknowledgment of an accepted upload. *)
Lemma upload_acknowledgment_is_dict (video : routes.upload.UploadFile) :
  validate_response Dict_str_Any
    (PDict [ ("message", PStr "Video uploaded successfully");
             ("video_id", PInt 1);
             ("filename", of_optional_str (routes.upload.filename video));
             ("content_type",
              of_optional_str (routes.upload.content_type video)) ]) = true.
Proof. reflexivity. Qed.

(** A string that starts with ["video/"] is not empty. *)
Lemma video_prefix_nonempty (ct : string) :
  String.prefix "video/" ct = true -> String.eqb ct "" = false.
Proof. destruct ct as [| c ct]; [discriminate | reflexivity]. Qed.

(** The test of the handler, in terms of the declared media type. *)
Lemma upload_test (video : routes.upload.UploadFile) :
  negb (routes.upload.truthy (routes.upload.content_type video))
  || negb (routes.upload.startswith (routes.upload.content_type video) "video/")
  = false
  <-> exists ct, routes.upload.content_type video = Some ct
                 /\ String.prefix "video/" ct = true.
Proof.
  destruct video as [name [ct |] bytes]; cbn [routes.upload.content_type
    routes.upload.truthy routes.upload.startswith].
  - split.
    + intros Hor. apply orb_false_elim in Hor as [_ Hpre].
      apply negb_false_iff in Hpre. now exists ct.
    + intros (ct' & Hct & Hpre). injection Hct as <-.
      rewrite (video_prefix_nonempty ct Hpre), Hpre. reflexivity.
  - split; [discriminate |]. intros (ct & Hct & _). discriminate Hct.
Qed.

Section UploadFacts.
Context (json_loads : string -> load_error + pyval).

Lemma app_upload_rejected (video : routes.upload.UploadFile) (fs : FileSystem) :
  ~ (exists ct, routes.upload.content_type video = Some ct
                /\ String.prefix "video/" ct = true) ->
  main.app json_loads (main.POST_api_upload_video video) fs
  = (http_error 400 "File must be a video", fs).
Proof.
  intros Hno. unfold main.app. cbn [main.dispatch routes.upload.router].
  unfold api_route, routes.upload.upload_video.
  destruct (_ || _) eqn:Htest.
  - reflexivity.
  - exfalso. apply Hno. now apply upload_test.
Qed.

Lemma app_upload_accepted (video : routes.upload.UploadFile) (fs : FileSystem)
    (ct : string) :
  routes.upload.content_type video = Some ct ->
  String.prefix "video/" ct = true ->
  main.app json_loads (main.POST_api_upload_video video) fs
  = ({| status := 200;
        body := PDict [ ("message", PStr "Video uploaded successfully");
                        ("video_id", PInt 1);
                        ("filename",
                         of_optional_str (routes.upload.filename video));
                        ("content_type", PStr ct) ] |}, fs).
Proof.
  intros Hct Hpre. unfold main.app. cbn [main.dispatch routes.upload.router].
  unfold api_route, routes.upload.upload_video.
  replace (_ || _) with false
    by (symmetry; apply upload_test; now exists ct).
  rewrite bind_ret, upload_acknowledgment_is_dict, Hct.
  now destruct (routes.upload.filename video).
Qed.

End UploadFacts.

(** C4. The upload fails with status 400 if and only if the declared media
    type of the file does not begin with ["video/"], and every upload whose
    media type does begin with it is answered with status 200. *)
Theorem upload_video_400_iff_not_video (json_loads : string -> load_error + pyval)
    (video : routes.upload.UploadFile) (fs : FileSystem) :
  let resp := fst (main.app json_loads (main.POST_api_upload_video video) fs) in
  let is_video := exists ct, routes.upload.content_type video = Some ct
                             /\ String.prefix "video/" ct = true in
  (status resp = 400 <-> ~ is_video)
  /\ (resp = http_error 400 "File must be a video" <-> ~ is_video)
  /\ (is_video -> status resp = 200).
Proof.
  cbv zeta.
  destruct (String.prefix "video/"
              (default "" (routes.upload.content_type video))) eqn:Hpre.
  - assert (exists ct, routes.upload.content_type video = Some ct
                       /\ String.prefix "video/" ct = true) as Hvideo.
    { destruct (routes.upload.content_type video) as [ct |];
        [now exists ct | discriminate Hpre]. }
    destruct Hvideo as (ct & Hct & Hct').
    rewrite (app_upload_accepted json_loads video fs ct Hct Hct'). cbn.
    split; [| split].
    + split; [discriminate |]. intros Hno. exfalso. apply Hno. now exists ct.
    + split; [discriminate |]. intros Hno. exfalso. apply Hno. now exists ct.
    + reflexivity.
  - assert (~ exists ct, routes.upload.content_type video = Some ct
                         /\ String.prefix "video/" ct = true) as Hno.
    { intros (ct & Hct & Hct'). rewrite Hct in Hpre. cbn in Hpre. congruence. }
    rewrite (app_upload_rejected json_loads video fs Hno). cbn.
    split; [| split].
    + split; [intros _; exact Hno | reflexivity].
    + split; [intros _; exact Hno | reflexivity].
    + intros Hvideo. contradiction.
Qed.

(** C5. For every accepted upload the answer is the record with the fixed
    message, the constant [video_id] 1, and the file name and media type of
    the request as they were sent. *)
Theorem upload_video_acknowledgment (json_loads : string -> load_error + pyval)
    (video : routes.upload.UploadFile) (fs : FileSystem) (ct : string) :
  routes.upload.content_type video = Some ct ->
  String.prefix "video/" ct = true ->
  fst (main.app json_loads (main.POST_api_upload_video video) fs)
  = {| status := 200;
       body := PDict [ ("message", PStr "Video uploaded successfully");
                       ("video_id", PInt 1);
                       ("filename",
                        of_optional_str (routes.upload.filename video));
                       ("content_type", PStr ct) ] |}.
Proof.
  intros Hct Hpre.
  now rewrite (app_upload_accepted json_loads video fs ct Hct Hpre).
Qed.

(** C5, witness: [match.mp4] declared as [video/mp4]. *)
Lemma upload_video_acknowledgment_witness :
  fst (main.app basic_json.loads (main.POST_api_upload_video examples.mp4) ∅)
  = {| status := 200;
       body := PDict [ ("message", PStr "Video uploaded successfully");
                       ("video_id", PInt 1);
                       ("filename", PStr "match.mp4");
                       ("content_type", PStr "video/mp4") ] |}.
Proof.
  apply (upload_video_acknowledgment basic_json.loads examples.mp4 ∅
           "video/mp4"); reflexivity.
Defined.

(** C9. An upload with no declared content type, absent or empty, is
    answered with status 400 like any other file that is not a video. *)
Theorem upload_video_without_content_type
    (json_loads : string -> load_error + pyval) (video : routes.upload.UploadFile)
    (fs : FileSystem) :
  routes.upload.content_type video = None
  \/ routes.upload.content_type video = Some "" ->
  main.app json_loads (main.POST_api_upload_video video) fs
  = (http_error 400 "File must be a video", fs).
Proof.
  intros Hct. apply app_upload_rejected. intros (ct & Hsome & Hpre).
  destruct Hct as [Hnone | Hempty].
  - congruence.
  - rewrite Hempty in Hsome. injection Hsome as <-. discriminate Hpre.
Qed.

(** C9, witness: a part sent without any content type. *)
Lemma upload_video_without_content_type_witness :
  main.app basic_json.loads (main.POST_api_upload_video examples.untyped) ∅
  = (http_error 400 "File must be a video", ∅).
Proof.
  apply (upload_video_without_content_type basic_json.loads examples.untyped ∅).
  left. reflexivity.
Defined.

(* ===================================================================== *)
(** ** The entity schemas *)
(* ===================================================================== *)

Section FieldFacts.
Context `{Conversions}.

Lemma Int_accepts (ge le : option Z) (v : pyval) (z : Z) :
  pydantic.Int ge le v = Some z -> pydantic.int_in ge le z = true.
Proof.
  unfold pydantic.Int. intros Hv.
  apply bind_Some in Hv as (z' & _ & Hz).
  destruct (pydantic.int_in ge le z') eqn:Hin; [| discriminate Hz].
  now injection Hz as <-.
Qed.

Lemma Float_accepts (ge le : option float) (v : pyval) (f : float) :
  pydantic.Float ge le v = Some f -> pydantic.float_in ge le f = true.
Proof.
  unfold pydantic.Float. intros Hv.
  apply bind_Some in Hv as (f' & _ & Hf).
  destruct (pydantic.float_in ge le f') eqn:Hin; [| discriminate Hf].
  now injection Hf as <-.
Qed.

Lemma int_in_ge (lo : Z) (le : option Z) (z : Z) :
  pydantic.int_in (Some lo) le z = true -> lo <= z.
Proof.
  unfold pydantic.int_in. intros Hin.
  apply andb_prop in Hin as [Hlo _]. now apply Z.leb_le.
Qed.

Lemma int_in_between (lo hi z : Z) :
  pydantic.int_in (Some lo) (Some hi) z = true -> lo <= z <= hi.
Proof.
  unfold pydantic.int_in. intros Hin.
  apply andb_prop in Hin as [Hlo Hhi]. split; now apply Z.leb_le.
Qed.

Lemma float_in_ge (lo : float) (le : option float) (f : float) :
  pydantic.float_in (Some lo) le f = true -> fge f lo.
Proof.
  unfold pydantic.float_in, fge. intros Hin.
  now apply andb_prop in Hin as [Hlo _].
Qed.

Lemma float_in_between (lo hi f : float) :
  pydantic.float_in (Some lo) (Some hi) f = true -> fbetween lo hi f.
Proof.
  unfold pydantic.float_in, fbetween, fge, fle. intros Hin.
  now apply andb_prop in Hin as [Hlo Hhi].
Qed.

(** What an accepted field tells about its value. *)
Lemma required_Int_ge (d : list (string * pyval)) (key : string) (lo : Z)
    (le : option Z) (z : Z) :
  pydantic.required d key (pydantic.Int (Some lo) le) = Some z -> lo <= z.
Proof.
  unfold pydantic.required. intros Hr.
  apply bind_Some in Hr as (v & _ & Hv).
  eapply int_in_ge, Int_accepts, Hv.
Qed.

Lemma required_Int_between (d : list (string * pyval)) (key : string)
    (lo hi z : Z) :
  pydantic.required d key (pydantic.Int (Some lo) (Some hi)) = Some z ->
  lo <= z <= hi.
Proof.
  unfold pydantic.required. intros Hr.
  apply bind_Some in Hr as (v & _ & Hv).
  eapply int_in_between, Int_accepts, Hv.
Qed.

Lemma required_Float_ge (d : list (string * pyval)) (key : string)
    (lo : float) (le : option float) (f : float) :
  pydantic.required d key (pydantic.Float (Some lo) le) = Some f -> fge f lo.
Proof.
  unfold pydantic.required. intros Hr.
  apply bind_Some in Hr as (v & _ & Hv).
  eapply float_in_ge, Float_accepts, Hv.
Qed.

Lemma required_Float_between (d : list (string * pyval)) (key : string)
    (lo hi f : float) :
  pydantic.required d key (pydantic.Float (Some lo) (Some hi)) = Some f ->
  fbetween lo hi f.
Proof.
  unfold pydantic.required. intros Hr.
  apply bind_Some in Hr as (v & _ & Hv).
  eapply float_in_between, Float_accepts, Hv.
Qed.

Lemma optional_Float_ge (d : list (string * pyval)) (key : string)
    (lo : float) (le : option float) (f : float) :
  pydantic.optional d key (pydantic.Float (Some lo) le) = Some (Some f) ->
  fge f lo.
Proof.
  unfold pydantic.optional. intros Ho.
  destruct (dict_get d key) as [v |]; [| discriminate Ho].
  assert (pydantic.Float (Some lo) le v = Some f) as Hv.
  { destruct v; try discriminate Ho;
      apply bind_Some in Ho as (f' & Hf' & Heq); congruence. }
  eapply float_in_ge, Float_accepts, Hv.
Qed.

(** A required field of the field's own type is read as it is. *)
Lemma required_Int_exact (d : list (string * pyval)) (key : string)
    (ge le : option Z) (z : Z) :
  dict_get d key = Some (PInt z) -> pydantic.int_in ge le z = true ->
  pydantic.required d key (pydantic.Int ge le) = Some z.
Proof.
  intros Hd Hin. unfold pydantic.required, pydantic.Int.
  rewrite Hd. cbn. rewrite to_int_int. cbn. now rewrite Hin.
Qed.

Lemma required_Float_exact (d : list (string * pyval)) (key : string)
    (ge le : option float) (f : float) :
  dict_get d key = Some (PFloat f) -> pydantic.float_in ge le f = true ->
  pydantic.required d key (pydantic.Float ge le) = Some f.
Proof.
  intros Hd Hin. unfold pydantic.required, pydantic.Float.
  rewrite Hd. cbn. rewrite to_float_float. cbn. now rewrite Hin.
Qed.

Lemma required_Str_exact (d : list (string * pyval)) (key s : string) :
  dict_get d key = Some (PStr s) ->
  pydantic.required d key pydantic.Str = Some s.
Proof.
  intros Hd. unfold pydantic.required, pydantic.Str.
  rewrite Hd. cbn. apply to_str_str.
Qed.

Lemma required_Bool_exact (d : list (string * pyval)) (key : string)
    (b : bool) :
  dict_get d key = Some (PBool b) ->
  pydantic.required d key pydantic.Bool = Some b.
Proof.
  intros Hd. unfold pydantic.required, pydantic.Bool.
  rewrite Hd. cbn. apply to_bool_bool.
Qed.

End FieldFacts.

(** Opens an accepted model: one equation per field, in the order of the
    class. *)
Ltac open_model Hv :=
  match type of Hv with
  | _ ?obj = Some _ =>
      destruct obj; try discriminate Hv;
      cbn [schemas.tactical.HeatmapPoint.model_validate
           schemas.tactical.PassConnection.model_validate
           schemas.tactical.PassNetwork.model_validate
           schemas.tactical.TrackingPoint.model_validate
           schemas.decisions.OffsideEvent.model_validate
           schemas.decisions.FoulEvent.model_validate
           schemas.decisions.GoalPrediction.model_validate] in Hv;
      repeat
        (let a := fresh "a" in
         let Ha := fresh "Ha" in
         apply bind_Some in Hv as (a & Ha & Hv));
      injection Hv as <-
  end.

(** Closes the bound of one field from the equation of that field. *)
Ltac field_bound :=
  first [ eapply required_Int_between; eassumption
        | eapply required_Int_ge; eassumption
        | eapply required_Float_between; eassumption
        | eapply required_Float_ge; eassumption ].

Section SchemaFacts.
Context `{Conversions}.

Lemma HeatmapPoint_bounds (obj : pyval) (r : schemas.tactical.HeatmapPoint.t) :
  schemas.tactical.HeatmapPoint.model_validate obj = Some r ->
  0 <= schemas.tactical.HeatmapPoint.x r <= 100
  /\ 0 <= schemas.tactical.HeatmapPoint.y r <= 100
  /\ fbetween 0 1 (schemas.tactical.HeatmapPoint.intensity r).
Proof.
  intros Hv. open_model Hv. cbn.
  split; [field_bound | split; field_bound].
Qed.



Lemma TrackingPoint_bounds (obj : pyval)
    (r : schemas.tactical.TrackingPoint.t) :
  schemas.tactical.TrackingPoint.model_validate obj = Some r ->
  fge (schemas.tactical.TrackingPoint.timestamp r) 0
  /\ fbetween 0 100 (schemas.tactical.TrackingPoint.x r)
  /\ fbetween 0 100 (schemas.tactical.TrackingPoint.y r)
  /\ (forall s, schemas.tactical.TrackingPoint.speed r = Some s -> fge s 0).
Proof.
  intros Hv. open_model Hv. cbn.
  split; [field_bound | split; [field_bound | split; [field_bound |]]].
  intros s ->. eapply optional_Float_ge; eassumption.
Qed.

Lemma OffsideEvent_bounds (obj : pyval)
    (r : schemas.decisions.OffsideEvent.t) :
  schemas.decisions.OffsideEvent.model_validate obj = Some r ->
  fge (schemas.decisions.OffsideEvent.timestamp r) 0
  /\ fbetween 0 100 (schemas.decisions.OffsideEvent.x r)
  /\ fbetween 0 100 (schemas.decisions.OffsideEvent.y r).
Proof.
  intros Hv. open_model Hv. cbn.
  split; [field_bound | split; field_bound].
Qed.

Lemma FoulEvent_bounds (obj : pyval) (r : schemas.decisions.FoulEvent.t) :
  schemas.decisions.FoulEvent.model_validate obj = Some r ->
  fge (schemas.decisions.FoulEvent.timestamp r) 0
  /\ fbetween 0 100 (schemas.decisions.FoulEvent.x r)
  /\ fbetween 0 100 (schemas.decisions.FoulEvent.y r).
Proof.
  intros Hv. open_model Hv. cbn.
  split; [field_bound | split; field_bound].
Qed.

Lemma GoalPrediction_bounds (obj : pyval)
    (r : schemas.decisions.GoalPrediction.t) :
  schemas.decisions.GoalPrediction.model_validate obj = Some r ->
  fbetween 0 100 (schemas.decisions.GoalPrediction.shot_x r)
  /\ fbetween 0 100 (schemas.decisions.GoalPrediction.shot_y r)
  /\ fbetween 0 1 (schemas.decisions.GoalPrediction.xG r).
Proof.
  intros Hv. open_model Hv. cbn.
  split; [field_bound | split; field_bound].
Qed.

(** A foul with the fields of the schema's example is accepted with any
    string as its severity. *)
Lemma FoulEvent_accepts_severity (s : string) :
  schemas.decisions.FoulEvent.model_validate (examples.foul s)
  = Some {| schemas.decisions.FoulEvent.foul_id := 1;
            schemas.decisions.FoulEvent.player_committed := 5;
            schemas.decisions.FoulEvent.player_suffered := 10;
            schemas.decisions.FoulEvent.timestamp := 180.5%float;
            schemas.decisions.FoulEvent.x := 50%float;
            schemas.decisions.FoulEvent.y := 30%float;
            schemas.decisions.FoulEvent.severity := s;
            schemas.decisions.FoulEvent.is_correct := true |}.
Proof.
  unfold examples.foul. cbn [schemas.decisions.FoulEvent.model_validate].
  rewrite (required_Int_exact _ "foul_id" None None 1) by reflexivity.
  cbn [mbind option_bind].
  rewrite (required_Int_exact _ "player_committed" None None 5)
    by reflexivity.
  cbn [mbind option_bind].
  rewrite (required_Int_exact _ "player_suffered" None None 10)
    by reflexivity.
  cbn [mbind option_bind].
  rewrite (required_Float_exact _ "timestamp" _ _ 180.5%float)
    by reflexivity.
  cbn [mbind option_bind].
  rewrite (required_Float_exact _ "x" _ _ 50%float) by reflexivity.
  cbn [mbind option_bind].
  rewrite (required_Float_exact _ "y" _ _ 30%float) by reflexivity.
  cbn [mbind option_bind].
  rewrite (required_Str_exact _ "severity" s) by reflexivity.
  cbn [mbind option_bind].
  rewrite (required_Bool_exact _ "is_correct" true) by reflexivity.
  reflexivity.
Qed.

End SchemaFacts.



(** C6 (the code at the failing input). ["severe"] is not the value of any
    member of [SeverityLevel], and a foul whose severity is ["severe"] is
    accepted by [FoulEvent] with that severity, whatever the conversions:
    the field is a plain [str]. *)
Theorem FoulEvent_accepts_unlisted_severity :
  ~ In "severe" (map schemas.decisions.SeverityLevel_value
                   schemas.decisions.SeverityLevel_members)
  /\ (forall C : Conversions,
        exists r,
          @schemas.decisions.FoulEvent.model_validate C (examples.foul "severe")
          = Some r
          /\ schemas.decisions.FoulEvent.severity r = "severe").
Proof.
  split.
  - cbn. intros [Hm | [Hm | [Hm | [Hm | []]]]]; discriminate Hm.
  - intros C. eexists. split.
    + apply FoulEvent_accepts_severity.
    + reflexivity.
Qed.

(* ===================================================================== *)
(** ** Further properties of the routes *)
(* ===================================================================== *)

(** A GET data endpoint whose fixture is absent answers 404 and names the
    file. *)
Theorem GET_absent_fixture_404 (json_loads : string -> load_error + pyval)
    (e : data_endpoint) (fs : FileSystem) :
  fs !! fixture e = None ->
  main.app json_loads (GET e) fs
  = (http_error 404 ("Data file " +:+ fixture e +:+ " not found"), fs).
Proof. apply app_GET_absent. Qed.

Lemma GET_absent_fixture_404_witness :
  main.app basic_json.loads (GET (Decisions routes.decisions.fouls)) ∅
  = (http_error 404 "Data file fouls.json not found", ∅).
Proof.
  apply (GET_absent_fixture_404 basic_json.loads
           (Decisions routes.decisions.fouls) ∅).
  apply lookup_empty.
Defined.

(** A GET data endpoint answers 500 in two ways. When its fixture is a
    readable file that [json.load] rejects as malformed JSON, the loader
    catches the error and the answer names the file. When the loader fails
    otherwise (the path is a directory, the file may not be read, its bytes
    are not UTF-8, the document is too deep or an integer too long), nothing
    catches the exception and the answer is the server's plain 500. *)
Theorem GET_malformed_fixture_500 (json_loads : string -> load_error + pyval)
    (e : data_endpoint) (fs : FileSystem) :
  (forall text,
     fs !! fixture e = Some (File true text) ->
     json_loads text = inl not_json ->
     main.app json_loads (GET e) fs
     = (http_error 500 ("Error parsing " +:+ fixture e), fs))
  /\ (fs !! fixture e = Some Directory
      \/ (exists content, fs !! fixture e = Some (File false content))
      \/ (exists content err,
            fs !! fixture e = Some (File true content)
            /\ json_loads content = inl err /\ err <> not_json) ->
      main.app json_loads (GET e) fs
      = ({| status := 500; body := PStr "Internal Server Error" |}, fs)).
Proof.
  split.
  - intros text. apply app_GET_malformed.
  - intros [Hdir | [(content & Hfile) | (content & err & Hfile & Hjson & Hne)]].
    + now apply (app_GET_escapes json_loads e fs Directory IsADirectoryError).
    + now apply (app_GET_escapes json_loads e fs (File false content)
                   PermissionError).
    + apply (app_GET_escapes json_loads e fs (File true content) (raised err));
        [exact Hfile |].
      cbn [escapes]. rewrite Hjson. now destruct err.
Qed.

Lemma GET_malformed_fixture_500_witness :
  let fs := examples.fs_with "offside.json" "[1, 2" in
  let fs' := examples.fs_with "offside.json" examples.not_utf8_bytes in
  main.app basic_json.loads (GET (Decisions routes.decisions.offside)) fs
  = (http_error 500 "Error parsing offside.json", fs)
  /\ main.app basic_json.loads (GET (Decisions routes.decisions.offside)) fs'
     = ({| status := 500; body := PStr "Internal Server Error" |}, fs').
Proof.
  cbv zeta. split.
  - apply (proj1 (GET_malformed_fixture_500 basic_json.loads
                    (Decisions routes.decisions.offside) _) "[1, 2").
    + apply fs_with_lookup.
    + vm_compute. reflexivity.
  - apply (proj2 (GET_malformed_fixture_500 basic_json.loads
                    (Decisions routes.decisions.offside) _)).
    right. right. exists examples.not_utf8_bytes, not_utf8.
    split; [apply fs_with_lookup | split; [vm_compute; reflexivity |]].
    discriminate.
Defined.

(** The two uploads of the specification's examples: [video/mp4] is
    acknowledged, [image/png] is refused with 400. *)
Example upload_mp4_and_png :
  status (fst (main.app basic_json.loads
                 (main.POST_api_upload_video examples.mp4) ∅)) = 200
  /\ main.app basic_json.loads (main.POST_api_upload_video examples.png) ∅
     = (http_error 400 "File must be a video", ∅).
Proof. split; reflexivity. Qed.

(** The upload handler does not look at the uploaded bytes: two uploads that
    differ in them only are answered alike. *)
Theorem upload_video_ignores_bytes (json_loads : string -> load_error + pyval)
    (name ct : option string) (bytes bytes' : string) (fs : FileSystem) :
  main.app json_loads
    (main.POST_api_upload_video
       {| routes.upload.filename := name;
          routes.upload.content_type := ct;
          routes.upload.file := bytes |}) fs
  = main.app json_loads
      (main.POST_api_upload_video
         {| routes.upload.filename := name;
            routes.upload.content_type := ct;
            routes.upload.file := bytes' |}) fs.
Proof.
  unfold main.app. cbn [main.dispatch routes.upload.router].
  unfold routes.upload.upload_video. cbn [routes.upload.content_type
    routes.upload.filename].
  reflexivity.
Qed.

(* ===================================================================== *)
(** ** Further properties: what a data route answers, and from what *)
(* ===================================================================== *)





(** The answer of a data endpoint is a function of its fixture. *)
Lemma app_GET_same_fixture (json_loads : string -> load_error + pyval)
    (e : data_endpoint) (fs fs' : FileSystem) :
  fs !! fixture e = fs' !! fixture e ->
  fst (main.app json_loads (GET e) fs) = fst (main.app json_loads (GET e) fs').
Proof.
  intros Hsame.
  destruct (fixture_cases json_loads (fixture e) fs)
    as [Habs | [(text & Hfs & Hjson) | [(text & v & Hfs & Hjson)
       | (n & x & Hfs & Hesc)]]].
  - rewrite (app_GET_absent json_loads e fs Habs).
    rewrite (app_GET_absent json_loads e fs') by congruence. reflexivity.
  - rewrite (app_GET_malformed json_loads e fs text Hfs Hjson).
    rewrite (app_GET_malformed json_loads e fs' text) by congruence.
    reflexivity.
  - rewrite (app_GET_parsed json_loads e fs text v Hfs Hjson).
    rewrite (app_GET_parsed json_loads e fs' text v) by congruence.
    reflexivity.
  - rewrite (app_GET_escapes json_loads e fs n x Hfs Hesc).
    rewrite (app_GET_escapes json_loads e fs' n x) by congruence.
    reflexivity.
Qed.

(** A data endpoint reads its own fixture and nothing else: on two
    directories that hold the same fixture for it, it answers the same. *)
Theorem GET_depends_on_own_fixture (json_loads : string -> load_error + pyval)
    (e : data_endpoint) (fs fs' : FileSystem) :
  fs !! fixture e = fs' !! fixture e ->
  fst (main.app json_loads (GET e) fs) = fst (main.app json_loads (GET e) fs').
Proof. apply app_GET_same_fixture. Qed.

Lemma GET_depends_on_own_fixture_witness :
  fst (main.app basic_json.loads (GET (Tactical routes.tactical.heatmap))
         (<["fouls.json" := File true "[]"]>
            (examples.fs_with "heatmap.json" examples.heatmap_good)))
  = fst (main.app basic_json.loads (GET (Tactical routes.tactical.heatmap))
           (examples.fs_with "heatmap.json" examples.heatmap_good)).
Proof.
  apply (GET_depends_on_own_fixture basic_json.loads
           (Tactical routes.tactical.heatmap)).
  apply lookup_insert_ne. discriminate.
Defined.



(** The service keeps no state between requests: what a request is answered
    does not depend on the requests served before it, and serving it again
    gives the same answer. *)
Theorem responses_independent_of_history (json_loads : string -> load_error + pyval)
    (earlier : list main.request) (req : main.request) (fs : FileSystem) :
  fst (main.app json_loads req
         (foldl (fun fs' r => snd (main.app json_loads r fs')) fs earlier))
  = fst (main.app json_loads req fs).
Proof.
  assert (forall r fs', snd (main.app json_loads r fs') = fs') as Hro.
  { intros r fs'. unfold main.app.
    pose proof (read_only_dispatch json_loads r fs') as Hr. unfold final in Hr.
    now destruct (main.dispatch json_loads r fs'). }
  induction earlier as [| r earlier IH] in fs |- *; cbn [foldl].
  - reflexivity.
  - rewrite Hro. apply IH.
Qed.

(* ===================================================================== *)
(** ** Further properties of the entity schemas *)
(* ===================================================================== *)

Section MoreFieldFacts.
Context `{Conversions}.

Lemma required_is_Some {A} (d : list (string * pyval)) (key : string)
    (validator : pyval -> option A) (a : A) :
  pydantic.required d key validator = Some a -> is_Some (dict_get d key).
Proof.
  unfold pydantic.required. intros Hr.
  apply bind_Some in Hr as (v & Hv & _). now exists v.
Qed.

Lemma required_alias_is_Some {A} (d : list (string * pyval))
    (alias name : string) (validator : pyval -> option A) (a : A) :
  pydantic.required_alias d alias name validator = Some a ->
  is_Some (dict_get d alias) \/ is_Some (dict_get d name).
Proof.
  unfold pydantic.required_alias. intros Hr.
  apply bind_Some in Hr as (v & Hv & _).
  destruct (dict_get d alias) as [w |].
  - left. now exists w.
  - right. now exists v.
Qed.

Lemma int_in_intro_ge (lo z : Z) :
  lo <= z -> pydantic.int_in (Some lo) None z = true.
Proof.
  intros Hlo. unfold pydantic.int_in. rewrite andb_true_r. now apply Z.leb_le.
Qed.

Lemma int_in_intro_between (lo hi z : Z) :
  lo <= z <= hi -> pydantic.int_in (Some lo) (Some hi) z = true.
Proof.
  intros [Hlo Hhi]. unfold pydantic.int_in.
  apply andb_true_intro. split; now apply Z.leb_le.
Qed.

Lemma float_in_intro_ge (lo f : float) :
  fge f lo -> pydantic.float_in (Some lo) None f = true.
Proof.
  unfold fge, pydantic.float_in. intros ->. reflexivity.
Qed.

Lemma float_in_intro_between (lo hi f : float) :
  fbetween lo hi f -> pydantic.float_in (Some lo) (Some hi) f = true.
Proof.
  unfold fbetween, fge, fle, pydantic.float_in. intros [-> ->]. reflexivity.
Qed.

(** A field with an alias, given under the alias or, when the alias is not
    there, under its own name. *)
Lemma required_alias_Int_exact (d : list (string * pyval))
    (alias name : string) (ge le : option Z) (z : Z) :
  dict_get d alias = Some (PInt z)
  \/ (dict_get d alias = None /\ dict_get d name = Some (PInt z)) ->
  pydantic.int_in ge le z = true ->
  pydantic.required_alias d alias name (pydantic.Int ge le) = Some z.
Proof.
  intros Hd Hin. unfold pydantic.required_alias, pydantic.Int.
  destruct Hd as [-> | [-> ->]]; cbn; rewrite to_int_int; cbn; now rewrite Hin.
Qed.

(** The optional field, given or not. *)
Lemma optional_Float_exact (d : list (string * pyval)) (key : string)
    (ge le : option float) (given : option float) :
  match given with
  | Some f => dict_get d key = Some (PFloat f)
              /\ pydantic.float_in ge le f = true
  | None => dict_get d key = None \/ dict_get d key = Some PNone
  end ->
  pydantic.optional d key (pydantic.Float ge le) = Some given.
Proof.
  unfold pydantic.optional, pydantic.Float.
  destruct given as [f |].
  - intros [-> Hin]. cbn. rewrite to_float_float. cbn. now rewrite Hin.
  - intros [-> | ->]; reflexivity.
Qed.

End MoreFieldFacts.

(** Rewrites the lookups of one dict into those of a dict that agrees with
    it on the keys of the model. *)
Ltac use_agreement Hag :=
  unfold agree_on in Hag;
  repeat (let Hk := fresh "Hk" in
          apply Forall_cons in Hag as [Hk Hag]; try rewrite Hk);
  clear Hag.

(** Every accepted record comes from a dict that holds all the required
    fields of its class: a value that is not a dict, or a dict that lacks one
    of them, is rejected. [speed] is the one field that may be missing; the
    ends of a pass are looked up under the alias or the field's name. *)
Theorem accepted_records_have_required_fields `{Conversions} :
  (forall obj r, schemas.tactical.HeatmapPoint.model_validate obj = Some r ->
     has_keys ["x"; "y"; "intensity"] obj)
  /\ (forall obj r,
        schemas.tactical.TrackingPoint.model_validate obj = Some r ->
        has_keys ["player_id"; "timestamp"; "x"; "y"] obj)
  /\ (forall obj r,
        schemas.tactical.PassNetwork.model_validate obj = Some r ->
        has_keys ["passes"] obj)
  /\ (forall obj r,
        schemas.tactical.PassConnection.model_validate obj = Some r ->
        exists d, obj = PDict d
          /\ (is_Some (dict_get d "from") \/ is_Some (dict_get d "from_player"))
          /\ (is_Some (dict_get d "to") \/ is_Some (dict_get d "to_player"))
          /\ is_Some (dict_get d "count"))
  /\ (forall obj r,
        schemas.decisions.OffsideEvent.model_validate obj = Some r ->
        has_keys ["player_id"; "timestamp"; "x"; "y"; "is_correct"] obj)
  /\ (forall obj r,
        schemas.decisions.FoulEvent.model_validate obj = Some r ->
        has_keys ["foul_id"; "player_committed"; "player_suffered";
                  "timestamp"; "x"; "y"; "severity"; "is_correct"] obj)
  /\ (forall obj r,
        schemas.decisions.GoalPrediction.model_validate obj = Some r ->
        has_keys ["shot_x"; "shot_y"; "xG"; "is_goal"] obj).
Proof.
  repeat apply conj; intros obj r Hv; open_model Hv;
    eexists; (split; [reflexivity |]);
    repeat first
      [ apply Forall_nil_2
      | apply Forall_cons_2; [eapply required_is_Some; eassumption |]
      | split; [eapply required_alias_is_Some; eassumption |]
      | eapply required_is_Some; eassumption ].
Qed.

(** Validation reads the declared fields of the class and nothing else: two
    dicts that agree on them (whatever other keys they hold, in whatever
    order) are accepted or rejected alike, with the same record. *)
Theorem validation_reads_declared_fields_only `{Conversions}
    (d d' : list (string * pyval)) :
  (agree_on ["x"; "y"; "intensity"] d d' ->
   schemas.tactical.HeatmapPoint.model_validate (PDict d)
   = schemas.tactical.HeatmapPoint.model_validate (PDict d'))
  /\ (agree_on ["from"; "from_player"; "to"; "to_player"; "count"] d d' ->
      schemas.tactical.PassConnection.model_validate (PDict d)
      = schemas.tactical.PassConnection.model_validate (PDict d'))
  /\ (agree_on ["passes"] d d' ->
      schemas.tactical.PassNetwork.model_validate (PDict d)
      = schemas.tactical.PassNetwork.model_validate (PDict d'))
  /\ (agree_on ["player_id"; "timestamp"; "x"; "y"; "speed"] d d' ->
      schemas.tactical.TrackingPoint.model_validate (PDict d)
      = schemas.tactical.TrackingPoint.model_validate (PDict d'))
  /\ (agree_on ["player_id"; "timestamp"; "x"; "y"; "is_correct"] d d' ->
      schemas.decisions.OffsideEvent.model_validate (PDict d)
      = schemas.decisions.OffsideEvent.model_validate (PDict d'))
  /\ (agree_on ["foul_id"; "player_committed"; "player_suffered";
                "timestamp"; "x"; "y"; "severity"; "is_correct"] d d' ->
      schemas.decisions.FoulEvent.model_validate (PDict d)
      = schemas.decisions.FoulEvent.model_validate (PDict d'))
  /\ (agree_on ["shot_x"; "shot_y"; "xG"; "is_goal"] d d' ->
      schemas.decisions.GoalPrediction.model_validate (PDict d)
      = schemas.decisions.GoalPrediction.model_validate (PDict d')).
Proof.
  repeat apply conj; intros Hag;
    unfold schemas.tactical.HeatmapPoint.model_validate,
      schemas.tactical.PassConnection.model_validate,
      schemas.tactical.PassNetwork.model_validate,
      schemas.tactical.TrackingPoint.model_validate,
      schemas.decisions.OffsideEvent.model_validate,
      schemas.decisions.FoulEvent.model_validate,
      schemas.decisions.GoalPrediction.model_validate,
      pydantic.required, pydantic.required_alias, pydantic.optional;
    use_agreement Hag; reflexivity.
Qed.

(** An unknown key in front of a dict, as an instance: it changes nothing
    for [HeatmapPoint]. *)
Lemma validation_reads_declared_fields_only_witness :
  @schemas.tactical.HeatmapPoint.model_validate exact_types
    (PDict [ ("note", PStr "corner"); ("intensity", PFloat 1%float);
             ("y", PInt 50); ("x", PInt 20) ])
  = @schemas.tactical.HeatmapPoint.model_validate exact_types
      (PDict [ ("x", PInt 20); ("y", PInt 50);
               ("intensity", PFloat 1%float) ]).
Proof.
  apply (proj1 (@validation_reads_declared_fields_only exact_types _ _)).
  repeat constructor.
Defined.

(** Closes the lookup or the bound of one field from the hypotheses. *)
Ltac field_given :=
  first [ eassumption
        | apply int_in_intro_between; eassumption
        | apply int_in_intro_ge; eassumption
        | apply float_in_intro_between; eassumption
        | apply float_in_intro_ge; eassumption
        | reflexivity ].

(** The records of [schemas/tactical.py] whose fields have their own types
    and lie within the bounds are accepted as they are: a heatmap point; a
    pass whose ends are given under the aliases [from], [to] or, without
    them, under the names [from_player], [to_player]; a tracking point with
    a speed, with [speed] null or without the key. *)
Theorem tactical_records_in_bounds_accepted `{Conversions}
    (d : list (string * pyval)) :
  (forall x y i,
     dict_get d "x" = Some (PInt x) -> dict_get d "y" = Some (PInt y) ->
     dict_get d "intensity" = Some (PFloat i) ->
     0 <= x <= 100 -> 0 <= y <= 100 -> fbetween 0 1 i ->
     schemas.tactical.HeatmapPoint.model_validate (PDict d)
     = Some {| schemas.tactical.HeatmapPoint.x := x;
               schemas.tactical.HeatmapPoint.y := y;
               schemas.tactical.HeatmapPoint.intensity := i |})
  /\ (forall a b n,
        dict_get d "from" = Some (PInt a)
        \/ (dict_get d "from" = None
            /\ dict_get d "from_player" = Some (PInt a)) ->
        dict_get d "to" = Some (PInt b)
        \/ (dict_get d "to" = None /\ dict_get d "to_player" = Some (PInt b)) ->
        dict_get d "count" = Some (PInt n) -> 0 <= n ->
        schemas.tactical.PassConnection.model_validate (PDict d)
        = Some {| schemas.tactical.PassConnection.from_player := a;
                  schemas.tactical.PassConnection.to_player := b;
                  schemas.tactical.PassConnection.count := n |})
  /\ (forall p t x y (speed : option float),
        dict_get d "player_id" = Some (PInt p) ->
        dict_get d "timestamp" = Some (PFloat t) ->
        dict_get d "x" = Some (PFloat x) -> dict_get d "y" = Some (PFloat y) ->
        match speed with
        | Some s => dict_get d "speed" = Some (PFloat s) /\ fge s 0
        | None => dict_get d "speed" = None \/ dict_get d "speed" = Some PNone
        end ->
        fge t 0 -> fbetween 0 100 x -> fbetween 0 100 y ->
        schemas.tactical.TrackingPoint.model_validate (PDict d)
        = Some {| schemas.tactical.TrackingPoint.player_id := p;
                  schemas.tactical.TrackingPoint.timestamp := t;
                  schemas.tactical.TrackingPoint.x := x;
                  schemas.tactical.TrackingPoint.y := y;
                  schemas.tactical.TrackingPoint.speed := speed |}).
Proof.
  split; [| split].
  - intros x y i Hx Hy Hi Bx By Bi.
    cbn [schemas.tactical.HeatmapPoint.model_validate].
    rewrite (required_Int_exact d "x" _ _ x) by field_given.
    cbn [mbind option_bind].
    rewrite (required_Int_exact d "y" _ _ y) by field_given.
    cbn [mbind option_bind].
    rewrite (required_Float_exact d "intensity" _ _ i) by field_given.
    reflexivity.
  - intros a b n Ha Hb Hn Bn.
    cbn [schemas.tactical.PassConnection.model_validate].
    rewrite (required_alias_Int_exact d "from" "from_player" None None a)
      by field_given.
    cbn [mbind option_bind].
    rewrite (required_alias_Int_exact d "to" "to_player" None None b)
      by field_given.
    cbn [mbind option_bind].
    rewrite (required_Int_exact d "count" _ _ n) by field_given.
    reflexivity.
  - intros p t x y speed Hp Ht Hx Hy Hs Bt Bx By.
    cbn [schemas.tactical.TrackingPoint.model_validate].
    rewrite (required_Int_exact d "player_id" None None p) by field_given.
    cbn [mbind option_bind].
    rewrite (required_Float_exact d "timestamp" _ _ t) by field_given.
    cbn [mbind option_bind].
    rewrite (required_Float_exact d "x" _ _ x) by field_given.
    cbn [mbind option_bind].
    rewrite (required_Float_exact d "y" _ _ y) by field_given.
    cbn [mbind option_bind].
    rewrite (optional_Float_exact d "speed" (Some 0%float) None speed)
      by (destruct speed; [destruct Hs; split; field_given | exact Hs]).
    reflexivity.
Qed.

(** A tracking point without the key [speed], as an instance. *)
Lemma tactical_records_in_bounds_accepted_witness :
  @schemas.tactical.TrackingPoint.model_validate exact_types
    (PDict [ ("player_id", PInt 10); ("timestamp", PFloat 120.5%float);
             ("x", PFloat 45.25%float); ("y", PFloat 30.5%float) ])
  = Some {| schemas.tactical.TrackingPoint.player_id := 10;
            schemas.tactical.TrackingPoint.timestamp := 120.5%float;
            schemas.tactical.TrackingPoint.x := 45.25%float;
            schemas.tactical.TrackingPoint.y := 30.5%float;
            schemas.tactical.TrackingPoint.speed := None |}.
Proof.
  apply (proj2 (proj2 (@tactical_records_in_bounds_accepted exact_types _))
           10 120.5%float 45.25%float 30.5%float None);
    first [reflexivity | left; reflexivity | split; reflexivity].
Defined.

(** The records of [schemas/decisions.py] whose fields have their own types
    and lie within the bounds are accepted as they are; the severity of a
    foul may be any string. *)
Theorem decisions_records_in_bounds_accepted `{Conversions}
    (d : list (string * pyval)) :
  (forall p t x y c,
     dict_get d "player_id" = Some (PInt p) ->
     dict_get d "timestamp" = Some (PFloat t) ->
     dict_get d "x" = Some (PFloat x) -> dict_get d "y" = Some (PFloat y) ->
     dict_get d "is_correct" = Some (PBool c) ->
     fge t 0 -> fbetween 0 100 x -> fbetween 0 100 y ->
     schemas.decisions.OffsideEvent.model_validate (PDict d)
     = Some {| schemas.decisions.OffsideEvent.player_id := p;
               schemas.decisions.OffsideEvent.timestamp := t;
               schemas.decisions.OffsideEvent.x := x;
               schemas.decisions.OffsideEvent.y := y;
               schemas.decisions.OffsideEvent.is_correct := c |})
  /\ (forall i pc ps t x y (s : string) c,
        dict_get d "foul_id" = Some (PInt i) ->
        dict_get d "player_committed" = Some (PInt pc) ->
        dict_get d "player_suffered" = Some (PInt ps) ->
        dict_get d "timestamp" = Some (PFloat t) ->
        dict_get d "x" = Some (PFloat x) -> dict_get d "y" = Some (PFloat y) ->
        dict_get d "severity" = Some (PStr s) ->
        dict_get d "is_correct" = Some (PBool c) ->
        fge t 0 -> fbetween 0 100 x -> fbetween 0 100 y ->
        schemas.decisions.FoulEvent.model_validate (PDict d)
        = Some {| schemas.decisions.FoulEvent.foul_id := i;
                  schemas.decisions.FoulEvent.player_committed := pc;
                  schemas.decisions.FoulEvent.player_suffered := ps;
                  schemas.decisions.FoulEvent.timestamp := t;
                  schemas.decisions.FoulEvent.x := x;
                  schemas.decisions.FoulEvent.y := y;
                  schemas.decisions.FoulEvent.severity := s;
                  schemas.decisions.FoulEvent.is_correct := c |})
  /\ (forall sx sy g c,
        dict_get d "shot_x" = Some (PFloat sx) ->
        dict_get d "shot_y" = Some (PFloat sy) ->
        dict_get d "xG" = Some (PFloat g) ->
        dict_get d "is_goal" = Some (PBool c) ->
        fbetween 0 100 sx -> fbetween 0 100 sy -> fbetween 0 1 g ->
        schemas.decisions.GoalPrediction.model_validate (PDict d)
        = Some {| schemas.decisions.GoalPrediction.shot_x := sx;
                  schemas.decisions.GoalPrediction.shot_y := sy;
                  schemas.decisions.GoalPrediction.xG := g;
                  schemas.decisions.GoalPrediction.is_goal := c |}).
Proof.
  split; [| split].
  - intros p t x y c Hp Ht Hx Hy Hc Bt Bx By.
    cbn [schemas.decisions.OffsideEvent.model_validate].
    rewrite (required_Int_exact d "player_id" None None p) by field_given.
    cbn [mbind option_bind].
    rewrite (required_Float_exact d "timestamp" _ _ t) by field_given.
    cbn [mbind option_bind].
    rewrite (required_Float_exact d "x" _ _ x) by field_given.
    cbn [mbind option_bind].
    rewrite (required_Float_exact d "y" _ _ y) by field_given.
    cbn [mbind option_bind].
    rewrite (required_Bool_exact d "is_correct" c) by field_given.
    reflexivity.
  - intros i pc ps t x y s c Hi Hpc Hps Ht Hx Hy Hs Hc Bt Bx By.
    cbn [schemas.decisions.FoulEvent.model_validate].
    rewrite (required_Int_exact d "foul_id" None None i) by field_given.
    cbn [mbind option_bind].
    rewrite (required_Int_exact d "player_committed" None None pc)
      by field_given.
    cbn [mbind option_bind].
    rewrite (required_Int_exact d "player_suffered" None None ps)
      by field_given.
    cbn [mbind option_bind].
    rewrite (required_Float_exact d "timestamp" _ _ t) by field_given.
    cbn [mbind option_bind].
    rewrite (required_Float_exact d "x" _ _ x) by field_given.
    cbn [mbind option_bind].
    rewrite (required_Float_exact d "y" _ _ y) by field_given.
    cbn [mbind option_bind].
    rewrite (required_Str_exact d "severity" s) by field_given.
    cbn [mbind option_bind].
    rewrite (required_Bool_exact d "is_correct" c) by field_given.
    reflexivity.
  - intros sx sy g c Hsx Hsy Hg Hc Bsx Bsy Bg.
    cbn [schemas.decisions.GoalPrediction.model_validate].
    rewrite (required_Float_exact d "shot_x" _ _ sx) by field_given.
    cbn [mbind option_bind].
    rewrite (required_Float_exact d "shot_y" _ _ sy) by field_given.
    cbn [mbind option_bind].
    rewrite (required_Float_exact d "xG" _ _ g) by field_given.
    cbn [mbind option_bind].
    rewrite (required_Bool_exact d "is_goal" c) by field_given.
    reflexivity.
Qed.

(** The goal prediction of the schema's example, with [shot_x], [shot_y]
    given as floats. *)
Lemma decisions_records_in_bounds_accepted_witness :
  @schemas.decisions.GoalPrediction.model_validate exact_types
    (PDict [ ("shot_x", PFloat 30%float); ("shot_y", PFloat 70%float);
             ("xG", PFloat 0.25%float); ("is_goal", PBool false) ])
  = Some {| schemas.decisions.GoalPrediction.shot_x := 30%float;
            schemas.decisions.GoalPrediction.shot_y := 70%float;
            schemas.decisions.GoalPrediction.xG := 0.25%float;
            schemas.decisions.GoalPrediction.is_goal := false |}.
Proof.
  apply (proj2 (proj2 (@decisions_records_in_bounds_accepted exact_types _))
           30%float 70%float 0.25%float false);
    first [reflexivity | split; reflexivity].
Defined.

(** A pass network is accepted exactly when its [passes] is a list whose
    every element is an accepted pass connection; the record keeps those
    connections one for one, in the order of the list. One bad element
    rejects the whole network, and the empty list is accepted. *)
Theorem PassNetwork_elementwise `{Conversions} (d : list (string * pyval))
    (r : schemas.tactical.PassNetwork.t) :
  schemas.tactical.PassNetwork.model_validate (PDict d) = Some r
  <-> exists l,
        dict_get d "passes" = Some (PList l)
        /\ Forall2
             (fun v p => schemas.tactical.PassConnection.model_validate v
                         = Some p)
             l (schemas.tactical.PassNetwork.passes r).
Proof.
  cbn [schemas.tactical.PassNetwork.model_validate].
  unfold pydantic.required, pydantic.List_of. split.
  - intros Hv.
    apply bind_Some in Hv as (ps & Hps & Hr). injection Hr as <-.
    apply bind_Some in Hps as (v & Hd & Hl).
    destruct v; try discriminate Hl.
    eexists. split; [exact Hd |]. now apply mapM_Some.
  - intros (l & Hd & Hall). rewrite Hd. cbn [mbind option_bind].
    apply mapM_Some in Hall. rewrite Hall. cbn [mbind option_bind].
    now destruct r.
Qed.

(* ===================================================================== *)
(** ** Bounded floats are numbers *)
(* ===================================================================== *)

(** A float that passes a comparison is not NaN. *)
Lemma fge_not_nan (f lo : float) : fge f lo -> not_nan f.
Proof.
  unfold fge, not_nan. rewrite leb_spec. intros Hle Hnan.
  rewrite Hnan in Hle. unfold SFleb, SFcompare in Hle.
  destruct (Prim2SF lo); discriminate Hle.
Qed.

(** A float between two numbers is a number. *)
Lemma fbetween_finite (lo hi f : float) :
  finite_float lo -> finite_float hi -> fbetween lo hi f -> finite_float f.
Proof.
  unfold finite_float, fbetween, fge, fle. rewrite !leb_spec.
  intros Hlo Hhi [Hge Hle]. unfold SFleb, SFcompare in Hge, Hle.
  destruct (Prim2SF f) as [sf | sf | | sf mf ef]; [exact I | | | exact I].
  - destruct sf.
    + destruct (Prim2SF lo) as [? | ? | | ? ? ?];
        first [contradiction | discriminate Hge].
    + destruct (Prim2SF hi) as [? | ? | | ? ? ?];
        first [contradiction | discriminate Hle].
  - destruct (Prim2SF lo); discriminate Hge.
Qed.

Lemma finite_0_1_100 :
  finite_float 0 /\ finite_float 1 /\ finite_float 100.
Proof. vm_compute. auto. Qed.

(** Closes the finiteness of a bounded field from its bounds. *)
Ltac bounded_is_finite :=
  match goal with
  | Hb : fbetween ?lo ?hi ?f |- finite_float ?f =>
      apply (fbetween_finite lo hi f); [| | exact Hb];
      first [ exact (proj1 finite_0_1_100)
            | exact (proj1 (proj2 finite_0_1_100))
            | exact (proj2 (proj2 finite_0_1_100)) ]
  | Hb : fge ?f ?lo |- not_nan ?f => exact (fge_not_nan f lo Hb)
  end.

(** In every accepted record, the bounded float fields (coordinates,
    [intensity], [xG]) are finite numbers, neither NaN nor an infinity, and
    the timestamps and the speed, bounded below only, are not NaN. *)
Theorem accepted_floats_are_numbers `{Conversions} :
  (forall obj r, schemas.tactical.HeatmapPoint.model_validate obj = Some r ->
     finite_float (schemas.tactical.HeatmapPoint.intensity r))
  /\ (forall obj r,
        schemas.decisions.GoalPrediction.model_validate obj = Some r ->
        finite_float (schemas.decisions.GoalPrediction.shot_x r)
        /\ finite_float (schemas.decisions.GoalPrediction.shot_y r)
        /\ finite_float (schemas.decisions.GoalPrediction.xG r))
  /\ (forall obj r,
        schemas.tactical.TrackingPoint.model_validate obj = Some r ->
        not_nan (schemas.tactical.TrackingPoint.timestamp r)
        /\ finite_float (schemas.tactical.TrackingPoint.x r)
        /\ finite_float (schemas.tactical.TrackingPoint.y r)
        /\ (forall s, schemas.tactical.TrackingPoint.speed r = Some s ->
                      not_nan s))
  /\ (forall obj r,
        schemas.decisions.OffsideEvent.model_validate obj = Some r ->
        not_nan (schemas.decisions.OffsideEvent.timestamp r)
        /\ finite_float (schemas.decisions.OffsideEvent.x r)
        /\ finite_float (schemas.decisions.OffsideEvent.y r))
  /\ (forall obj r,
        schemas.decisions.FoulEvent.model_validate obj = Some r ->
        not_nan (schemas.decisions.FoulEvent.timestamp r)
        /\ finite_float (schemas.decisions.FoulEvent.x r)
        /\ finite_float (schemas.decisions.FoulEvent.y r)).
Proof.
  split; [| split; [| split; [| split]]]; intros obj r Hv.
  - destruct (HeatmapPoint_bounds obj r Hv) as (_ & _ & Hi).
    bounded_is_finite.
  - destruct (GoalPrediction_bounds obj r Hv) as (Hx & Hy & Hg).
    split; [| split]; bounded_is_finite.
  - destruct (TrackingPoint_bounds obj r Hv) as (Ht & Hx & Hy & Hs).
    split; [| split; [| split]]; try bounded_is_finite.
    intros s Hsome. exact (fge_not_nan s 0 (Hs s Hsome)).
  - destruct (OffsideEvent_bounds obj r Hv) as (Ht & Hx & Hy).
    split; [| split]; bounded_is_finite.
  - destruct (FoulEvent_bounds obj r Hv) as (Ht & Hx & Hy).
    split; [| split]; bounded_is_finite.
Qed.

(* ===================================================================== *)
(** ** Schemas and routes together *)
(* ===================================================================== *)

Section SchemaVersusModel.
Context `{Conversions}.



End SchemaVersusModel.



(* ===================================================================== *)
(** ** The route table *)
(* ===================================================================== *)

(** No two routes share a method and a path: two requests with the same
    method and path are for the same endpoint. The data routes live under
    [/api/tactical/] and [/api/decisions/], the upload under [/api/]. *)
Theorem routes_are_distinct (req req' : main.request) :
  urls.url req = urls.url req' <-> urls.same_route req req'.
Proof.
  split.
  - destruct req as [| | [] | [] | video | errors],
      req' as [| | [] | [] | video' | errors'];
      cbn; intros Heq; first [exact I | reflexivity | discriminate Heq].
  - destruct req as [| | e | e | video | errors],
      req' as [| | e' | e' | video' | errors'];
      cbn; intros Hsame; first [reflexivity | discriminate Hsame | idtac].
    + injection Hsame as <-. reflexivity.
    + injection Hsame as <-. reflexivity.
Qed.

(* ===================================================================== *)
(** ** What escapes the loader *)
(* ===================================================================== *)

(** Beside the two errors it raises itself, the loader lets through, as
    raised, every error of opening and decoding the file other than
    [json.JSONDecodeError]: [IsADirectoryError] when the path is a
    directory, [PermissionError] when the file may not be read,
    [UnicodeDecodeError] when its bytes are not UTF-8, and the
    [RecursionError] and [ValueError] of [json.load]. *)
Theorem load_json_file_uncaught (json_loads : string -> load_error + pyval)
    (filename : string) (fs : FileSystem) :
  let r := result (routes.decisions.load_json_file json_loads filename) fs in
  (fs !! filename = Some Directory -> r = inl IsADirectoryError)
  /\ (forall content, fs !! filename = Some (File false content) ->
                      r = inl PermissionError)
  /\ (forall content, fs !! filename = Some (File true content) ->
       (json_loads content = inl not_utf8 -> r = inl UnicodeDecodeError)
       /\ (json_loads content = inl too_deep -> r = inl RecursionError)
       /\ (json_loads content = inl int_too_long -> r = inl ValueError)).
Proof.
  cbv zeta. unfold result. split; [| split].
  - intros Hfs.
    now rewrite (decisions_load_escapes json_loads filename Directory
                   IsADirectoryError fs Hfs).
  - intros content Hfs.
    now rewrite (decisions_load_escapes json_loads filename
                   (File false content) PermissionError fs Hfs).
  - intros content Hfs. split; [| split]; intros Hjson.
    + rewrite (decisions_load_escapes json_loads filename
                 (File true content) UnicodeDecodeError fs Hfs);
        [reflexivity |]. cbn [escapes]. now rewrite Hjson.
    + rewrite (decisions_load_escapes json_loads filename
                 (File true content) RecursionError fs Hfs);
        [reflexivity |]. cbn [escapes]. now rewrite Hjson.
    + rewrite (decisions_load_escapes json_loads filename
                 (File true content) ValueError fs Hfs);
        [reflexivity |]. cbn [escapes]. now rewrite Hjson.
Qed.

(** A fixture the process may not read, as an instance. *)
Lemma load_json_file_uncaught_witness :
  result (routes.decisions.load_json_file basic_json.loads "fouls.json")
    {[ "fouls.json" := File false "[]" ]}
  = inl PermissionError.
Proof.
  apply (proj1 (proj2 (load_json_file_uncaught basic_json.loads "fouls.json"
                         {[ "fouls.json" := File false "[]" ]})) "[]").
  apply lookup_singleton_eq.
Defined.
